(** * tk-unreal: the Unreal asset publish hook

    A shallow embedding of
    [hooks/tk-multi-publish2/basic/publish_unreal_asset.py]
    (class [UnrealAssetPublishPlugin]) and the properties of its four
    lifecycle callbacks [accept], [validate], [publish] and [finalize].

    The hook is glue over three collaborators that are not part of the
    repository: the Python standard library ([str.split], [os.path],
    [shutil.copytree]), the Toolkit publisher and its base plugin class,
    and the Unreal engine bindings.  The string and path functions are
    transcribed here from CPython's [str] and [posixpath]; the other
    collaborators are taken as the fields of a [Host] record. *)

From Stdlib Require Import ZArith String Ascii List Lia Bool.
From stdpp Require Import base gmap strings list fin_maps pretty.

Local Open Scope Z_scope.

(** ** Python strings and lists *)

Module PyStr.

(** [s.split(c)] for a one-character separator: never returns the empty
    list, and [n] separators give [n + 1] fields. *)
Fixpoint split (c : ascii) (s : string) : list string :=
  match s with
  | EmptyString => [EmptyString]
  | String a s' =>
      if Ascii.eqb a c then EmptyString :: split c s'
      else match split c s' with
           | h :: t => String a h :: t
           | [] => [String a EmptyString]
           end
  end.

(** [sp.join(l)]. *)
Definition join (sp : string) (l : list string) : string := String.concat sp l.

(** [l[start:stop]] with Python's treatment of negative and
    out-of-range bounds. *)
Definition clamp_index (n i : Z) : Z :=
  if i <? 0 then Z.max (i + n) 0 else Z.min i n.

Definition slice {A} (start stop : Z) (l : list A) : list A :=
  let n := Z.of_nat (length l) in
  let lo := clamp_index n start in
  let hi := clamp_index n stop in
  take (Z.to_nat (hi - lo)) (drop (Z.to_nat lo) l).

(** [s.startswith(p)]. *)
Definition startswith (p s : string) : bool := String.prefix p s.

(** [s.endswith(c)] for a one-character suffix. *)
Fixpoint endswith (c : ascii) (s : string) : bool :=
  match s with
  | EmptyString => false
  | String a EmptyString => Ascii.eqb a c
  | String _ s' => endswith c s'
  end.

(** [s.rfind(c)]: the index of the last occurrence, [-1] when absent. *)
Fixpoint rfind (c : ascii) (s : string) : Z :=
  match s with
  | EmptyString => -1
  | String a s' =>
      let r := rfind c s' in
      if 0 <=? r then r + 1 else if Ascii.eqb a c then 0 else -1
  end.

(** [s.rstrip(c)]. *)
Fixpoint rstrip (c : ascii) (s : string) : string :=
  match s with
  | EmptyString => EmptyString
  | String a s' =>
      match rstrip c s' with
      | EmptyString => if Ascii.eqb a c then EmptyString else String a EmptyString
      | r => String a r
      end
  end.

(** [c in s]. *)
Fixpoint contains (c : ascii) (s : string) : bool :=
  match s with
  | EmptyString => false
  | String a s' => (Ascii.eqb a c || contains c s')%bool
  end.

(** [c * n]. *)
Fixpoint repeat_char (c : ascii) (n : nat) : string :=
  match n with
  | O => EmptyString
  | S n' => String c (repeat_char c n')
  end.

(** [s[:i]] and [s[i:]] for [0 <= i]. *)
Definition str_take (i : Z) (s : string) : string :=
  String.substring 0 (Z.to_nat i) s.

Definition str_drop (i : Z) (s : string) : string :=
  String.substring (Z.to_nat i) (String.length s - Z.to_nat i) s.

End PyStr.

(** ** [os.path] on a POSIX host ([posixpath]) *)

Module OsPath.

Definition sep : ascii := "/"%char.
Definition sep_str : string := String sep EmptyString.

(** One round of the loop of [posixpath.join]. *)
Definition join_step (path b : string) : string :=
  if PyStr.startswith sep_str b then b
  else if (String.eqb path EmptyString || PyStr.endswith sep path)%bool
       then path +:+ b
       else path +:+ sep_str +:+ b.

(** [os.path.join(a, *p)]. *)
Definition join (a : string) (p : list string) : string :=
  fold_left join_step p a.

(** The number of leading slashes [posixpath.normpath] keeps: two when
    the path starts with exactly two, else one when it starts with one. *)
Definition initial_slashes (path : string) : nat :=
  if PyStr.startswith sep_str path then
    if (PyStr.startswith (PyStr.repeat_char sep 2) path
        && negb (PyStr.startswith (PyStr.repeat_char sep 3) path))%bool
    then 2%nat else 1%nat
  else 0%nat.

(** One round of the component loop of [posixpath.normpath];
    [new_comps] grows at its end, as the Python list does. *)
Definition norm_step (slashes : nat) (new_comps : list string) (comp : string)
  : list string :=
  if (String.eqb comp "" || String.eqb comp ".")%bool then new_comps
  else if (negb (String.eqb comp "..")
           || (Nat.eqb slashes 0 && bool_decide (new_comps = []))
           || (negb (bool_decide (new_comps = []))
               && String.eqb (List.last new_comps "") ".."))%bool
       then new_comps ++ [comp]
       else List.removelast new_comps.

(** [os.path.normpath(path)]. *)
Definition normpath (path : string) : string :=
  if String.eqb path "" then "."%string
  else
    let slashes := initial_slashes path in
    let comps := fold_left (norm_step slashes) (PyStr.split sep path) [] in
    let path' := PyStr.repeat_char sep slashes +:+ PyStr.join sep_str comps in
    if String.eqb path' "" then "."%string else path'.

(** [os.path.split(p)]: the pair (head, tail). *)
Definition split (p : string) : string * string :=
  let i := PyStr.rfind sep p + 1 in
  let head := PyStr.str_take i p in
  let tail := PyStr.str_drop i p in
  let head' :=
    if (negb (String.eqb head "")
        && negb (String.eqb head (PyStr.repeat_char sep (String.length head))))%bool
    then PyStr.rstrip sep head else head in
  (head', tail).

End OsPath.

(** ** Python values, exceptions and the plugin's world *)

(** A Toolkit template object, as the hook sees it: a handle it passes
    around and asks the template engine to resolve. *)
Record template := Template { template_name : string }.

(** The values that item properties, settings and template fields hold.
    [VObject] is an opaque host object known by its [str()], such as the
    [unreal.Name] the collector stores as the asset path. *)
Inductive pyval :=
| VNone
| VBool (b : bool)
| VInt (z : Z)
| VStr (s : string)
| VObject (repr : string)
| VTemplate (t : template).

(** The exceptions that can leave the hook. *)
Inductive exn :=
| KeyError (key : string)
| AttributeError (attr : string)
| TypeError
| OSError (msg : string)
| HostError (msg : string).

(** Python truthiness, the test behind [not x]. *)
Definition truthy (v : pyval) : bool :=
  match v with
  | VNone => false
  | VBool b => b
  | VInt z => negb (z =? 0)
  | VStr s => negb (String.eqb s "")
  | VObject _ => true
  | VTemplate _ => true
  end.

(** A [Setting] instance of the publisher: the hook reads its [value]. *)
Record Setting := { value : pyval }.

(** One entry of the [settings] schema. *)
Record SettingSpec := {
  setting_type : string;
  setting_default : pyval;
  setting_description : string
}.

(** The item: the hook reads and writes its [properties] dictionary. *)
Record Item := { properties : gmap string pyval }.

Record date := { year : Z; month : Z; day : Z }.

(** The calls of the hook that can change something outside it, in the
    order they are made: the logger, the folder call, the copy and the
    base class.  What the hook only asks for (the template lookup,
    [Template.apply_fields], [date.today()], the work directory of the
    engine) is read from the host and leaves no event. *)
Inductive event :=
| LogDebug (msg : string)
| EnsureFolderExists (p : pyval)
| CopyTree (src dst : string)
| BasePublish
| BaseFinalize.

(** The state a callback runs in: the item, the state of the outside
    (file system, tracking service) and the calls made so far. *)
Record World (S : Type) := {
  item : Item;
  system : S;
  trace : list event
}.
Arguments item {S} _.
Arguments system {S} _.
Arguments trace {S} _.

(** The collaborators of the hook that live outside the repository. *)
Record Host := {
  sys : Type;
  (* os.path.exists *)
  path_exists : sys -> string -> bool;
  (* self.parent.ensure_folder_exists *)
  ensure_folder_exists : pyval -> sys -> (exn + unit) * sys;
  (* shutil.copytree *)
  copytree : string -> string -> sys -> (exn + unit) * sys;
  (* unreal.ShotgunEngine.get_instance().get_shotgun_work_dir() *)
  get_shotgun_work_dir : sys -> string;
  (* self.parent.get_template_by_name *)
  get_template_by_name : pyval -> option template;
  (* Template.apply_fields *)
  apply_fields : template -> gmap string pyval -> exn + string;
  (* str() of a template object *)
  template_repr : template -> string;
  (* datetime.date.today(), read from the clock at each call *)
  today : sys -> date;
  (* the base plugin class *)
  base_settings : option (gmap string SettingSpec);
  base_publish : gmap string Setting -> Item -> sys -> (exn + pyval) * Item * sys;
  base_finalize : gmap string Setting -> Item -> sys -> (exn + pyval) * Item * sys
}.

Definition template_value (t : option template) : pyval :=
  match t with
  | Some t => VTemplate t
  | None => VNone
  end.

Section Plugin.

Context (h : Host).

(** [str(v)]. *)
Definition py_str (v : pyval) : string :=
  match v with
  | VNone => "None"
  | VBool true => "True"
  | VBool false => "False"
  | VInt z => pretty z
  | VStr s => s
  | VObject r => r
  | VTemplate t => template_repr h t
  end.

(** Computations of the hook: a state and exception monad over the world.
    A raised exception keeps the state reached so far, as in Python. *)
Definition M (A : Type) : Type := World (sys h) -> (exn + A) * World (sys h).

#[local] Instance M_ret : MRet M := fun A a w => (inr a, w).

#[local] Instance M_bind : MBind M := fun A B f m w =>
  match m w with
  | (inl e, w') => (inl e, w')
  | (inr a, w') => f a w'
  end.

Definition raise {A} (e : exn) : M A := fun w => (inl e, w).

Definition emit (ev : event) : M unit := fun w =>
  (inr (), {| item := item w; system := system w; trace := trace w ++ [ev] |}).

(** [item.properties.get(k)]. *)
Definition prop_get (k : string) : M pyval := fun w =>
  (inr (default VNone (properties (item w) !! k)), w).

(** [item.properties[k]]. *)
Definition prop_index (k : string) : M pyval := fun w =>
  match properties (item w) !! k with
  | Some v => (inr v, w)
  | None => (inl (KeyError k), w)
  end.

(** [item.properties[k] = v]. *)
Definition prop_set (k : string) (v : pyval) : M unit := fun w =>
  (inr (), {| item := {| properties := <[k := v]> (properties (item w)) |};
              system := system w; trace := trace w |}).

(** A call that only touches the outside. *)
Definition call_sys {A} (f : sys h -> (exn + A) * sys h) : M A := fun w =>
  let '(r, s) := f (system w) in
  (r, {| item := item w; system := s; trace := trace w |}).

(** A call into the base class, which gets the item as well. *)
Definition call_base (f : Item -> sys h -> (exn + pyval) * Item * sys h) : M pyval :=
  fun w =>
    let '(r, i, s) := f (item w) (system w) in
    (r, {| item := i; system := s; trace := trace w |}).

Definition logger_debug (msg : string) : M unit := emit (LogDebug msg).

(** The string arguments [os.path.join] insists on. *)
Definition expect_str (v : pyval) : M string :=
  match v with
  | VStr s => mret s
  | _ => raise TypeError
  end.

(** *** The [settings] property *)

Definition publish_template_setting : gmap string SettingSpec :=
  {[ "Publish Template" :=
       {| setting_type := "template";
          setting_default := VNone;
          setting_description :=
            "Template path for published work files. Should"
            +:+ "correspond to a template defined in "
            +:+ "templates.yml." |} ]}.

(** [d.update(e)]: the entries of [e] win. *)
Definition dict_update {V} (d e : gmap string V) : gmap string V := e ∪ d.

Definition settings : gmap string SettingSpec :=
  let base := default ∅ (base_settings h) in
  dict_update base publish_template_setting.

(** *** The [item_filters] property *)

Definition item_filters : list string := ["unreal.asset.SkeletalMesh"%string].

(** *** [accept] *)

Definition accept (settings : gmap string Setting) : M (gmap string pyval) :=
  name ← match settings !! "Publish Template" with
         | Some st => mret (value st)
         | None => raise (AttributeError "value")
         end;
  let publish_template := template_value (get_template_by_name h name) in
  accepted ←
    (if negb (truthy publish_template) then
       _ ← logger_debug ("A publish template could not be determined for the "
                         +:+ "asset item. Not accepting the item.");
       mret false
     else mret true);
  _ ← prop_set "publish_template" publish_template;
  mret ({[ "accepted" := VBool accepted; "checked" := VBool true ]}
        : gmap string pyval).

(** *** [validate] *)

(** The fields handed to the template: the asset name and the date. *)
Definition template_fields (date : date) (asset_name : pyval) : gmap string pyval :=
  <["DD" := VInt (day date)]>
    (<["MM" := VInt (month date)]>
       (<["YYYY" := VInt (year date)]>
          {[ "name" := asset_name ]})).

Definition validate (settings : gmap string Setting) : M bool :=
  asset_path ← prop_get "asset_path";
  asset_name ← prop_get "asset_name";
  if (negb (truthy asset_path) || negb (truthy asset_name))%bool then
    _ ← logger_debug "Asset path or name not configured.";
    mret false
  else
    publish_template ← prop_get "publish_template";
    if negb (truthy publish_template) then
      _ ← logger_debug "No publish template configured.";
      mret false
    else
      date ← call_sys (fun s => (inr (today h s), s));
      let fields := template_fields date asset_name in
      _ ← prop_set "publish_type" (VStr "Unreal Folder");
      publish_path ←
        match publish_template with
        | VTemplate t =>
            match apply_fields h t fields with
            | inr p => mret p
            | inl e => raise e
            end
        | _ => raise (AttributeError "apply_fields")
        end;
      let publish_path := OsPath.normpath publish_path in
      _ ← prop_set "path" (VStr publish_path);
      let destination_path := (OsPath.split publish_path).1 in
      _ ← prop_set "destination_path" (VStr destination_path);
      mret true.

(** *** [publish] *)

(** The directory under the work area that holds the asset:
    lines 216 to 219 of the hook. *)
Definition source_dir (work_dir : string) (asset_path : pyval) : string :=
  let path := PyStr.slice 2 (-1) (PyStr.split "/" (py_str asset_path)) in
  let path := PyStr.join "/" path in
  OsPath.join work_dir ["Content"%string; path].

Definition publish (settings : gmap string Setting) : M unit :=
  destination_path ← prop_index "destination_path";
  _ ← emit (EnsureFolderExists destination_path);
  _ ← call_sys (ensure_folder_exists h destination_path);
  asset_path ← prop_index "asset_path";
  asset_name ← prop_index "asset_name";
  work_dir ← call_sys (fun s => (inr (get_shotgun_work_dir h s), s));
  let path := source_dir work_dir asset_path in
  d ← expect_str destination_path;
  n ← expect_str asset_name;
  let destination_path := OsPath.join d [n] in
  _ ← emit (CopyTree path destination_path);
  _ ← call_sys (copytree h path destination_path);
  _ ← emit BasePublish;
  _ ← call_base (base_publish h settings);
  mret ().

(** *** [finalize] *)

Definition finalize (settings : gmap string Setting) : M unit :=
  _ ← emit BaseFinalize;
  _ ← call_base (base_finalize h settings);
  mret ().

End Plugin.

(** ** The publisher's item filter

    The publisher presents an item to [accept] when its type matches one
    of the plugin's [item_filters] as a glob pattern ([fnmatch]), with [*]
    for any run of characters and [?] for any one character.  Bracket
    classes are left out: no filter of this hook has one. *)

Module Fnmatch.

Fixpoint fnmatch_pat (pat : string) : string -> bool :=
  match pat with
  | EmptyString => fun name => String.eqb name ""
  | String c pat' =>
      if Ascii.eqb c "*" then
        fix star (name : string) : bool :=
          (fnmatch_pat pat' name
           || match name with
              | EmptyString => false
              | String _ name' => star name'
              end)%bool
      else if Ascii.eqb c "?" then
        fun name =>
          match name with
          | EmptyString => false
          | String _ name' => fnmatch_pat pat' name'
          end
      else
        fun name =>
          match name with
          | EmptyString => false
          | String d name' => (Ascii.eqb c d && fnmatch_pat pat' name')%bool
          end
  end.

Definition fnmatch (name pat : string) : bool := fnmatch_pat pat name.

(** A pattern without wildcards. *)
Fixpoint literal (pat : string) : bool :=
  match pat with
  | EmptyString => true
  | String c pat' =>
      (negb (Ascii.eqb c "*") && negb (Ascii.eqb c "?") && literal pat')%bool
  end.

End Fnmatch.

(** Whether the publisher presents an item of type [item_type] to [accept]. *)
Definition presented (item_type : string) : bool :=
  existsb (Fnmatch.fnmatch item_type) item_filters.

(** ** A concrete host

    A small host on which the callbacks run: the file system is the set
    of directories that exist, one template is configured, and the base
    class does nothing. *)

Module ExampleHost.

Definition asset_template : template := Template "unreal_asset_publish".

(** How the example template renders a field value. *)
Definition render_field (v : option pyval) : option string :=
  match v with
  | Some (VStr s) => Some s
  | Some (VInt z) => Some (pretty z)
  | _ => None
  end.

(** The template [/pub/{YYYY}/{MM}/{DD}/{name}]. *)
Definition render (fields : gmap string pyval) : exn + string :=
  match render_field (fields !! "YYYY"), render_field (fields !! "MM"),
        render_field (fields !! "DD"), render_field (fields !! "name") with
  | Some y, Some m, Some d, Some n =>
      inr ("/pub/" +:+ y +:+ "/" +:+ m +:+ "/" +:+ d +:+ "/" +:+ n)
  | _, _, _, _ => inl (HostError "TankError")
  end.

Definition mkdir (p : pyval) (s : gset string) : (exn + unit) * gset string :=
  match p with
  | VStr d => (inr (), {[ d ]} ∪ s)
  | _ => (inl TypeError, s)
  end.

(** [shutil.copytree] lists the source, then creates the destination,
    which must not exist. *)
Definition copy (src dst : string) (s : gset string) : (exn + unit) * gset string :=
  if negb (bool_decide (src ∈ s)) then (inl (OSError "No such file or directory"), s)
  else if bool_decide (dst ∈ s) then (inl (OSError "File exists"), s)
  else (inr (), {[ dst ]} ∪ s).

Definition host : Host := {|
  sys := gset string;
  path_exists := fun s p => bool_decide (p ∈ s);
  ensure_folder_exists := mkdir;
  copytree := copy;
  get_shotgun_work_dir := fun _ => "/work"%string;
  get_template_by_name := fun v =>
    match v with
    | VStr n => if String.eqb n "unreal_asset_publish" then Some asset_template else None
    | _ => None
    end;
  apply_fields := fun _ fields => render fields;
  template_repr := fun t => ("<Sgtk TemplatePath " +:+ template_name t +:+ ">")%string;
  today := fun _ => {| year := 2024; month := 3; day := 5 |};
  base_settings :=
    Some {[ "File Types" :=
              {| setting_type := "list"; setting_default := VNone;
                 setting_description := "List of file types" |} ]};
  base_publish := fun _ i s => (inr VNone, i, s);
  base_finalize := fun _ i s => (inr VNone, i, s)
|}.

Definition hero_item : Item := {|
  properties :=
    {[ "asset_path" := VObject "/Game/Characters/Hero/Hero_Skeleton";
       "asset_name" := VStr "Hero" ]}
|}.

(** The item as [accept] leaves it. *)
Definition accepted_item : Item := {|
  properties :=
    <["publish_template" := VTemplate asset_template]> (properties hero_item)
|}.

(** The item as [validate] leaves it on the fifth of March 2024. *)
Definition validated_item : Item := {|
  properties :=
    <["destination_path" := VStr "/pub/2024/3/5"]>
      (<["path" := VStr "/pub/2024/3/5/Hero"]>
         (<["publish_type" := VStr "Unreal Folder"]> (properties accepted_item)))
|}.

Definition world (i : Item) (dirs : gset string) : World (gset string) :=
  {| item := i; system := dirs; trace := [] |}.

(** An accepted item whose asset name is a host object, which the
    example template does not render. *)
Definition object_name_item : Item := {|
  properties := <["asset_name" := VObject "Hero"]> (properties accepted_item)
|}.

(** An accepted item whose asset name brings slashes of its own. *)
Definition slashed_item : Item := {|
  properties := <["asset_name" := VStr "Props//Hero/"]> (properties accepted_item)
|}.

(** The template [{name}], which resolves to a bare name. *)
Definition render_name (fields : gmap string pyval) : exn + string :=
  match render_field (fields !! "name") with
  | Some n => inr n
  | None => inl (HostError "TankError")
  end.

(** The example host with the template [{name}] in place of the dated one. *)
Definition bare_host : Host := {|
  sys := gset string;
  path_exists := path_exists host;
  ensure_folder_exists := mkdir;
  copytree := copy;
  get_shotgun_work_dir := get_shotgun_work_dir host;
  get_template_by_name := get_template_by_name host;
  apply_fields := fun _ fields => render_name fields;
  template_repr := template_repr host;
  today := today host;
  base_settings := base_settings host;
  base_publish := base_publish host;
  base_finalize := base_finalize host
|}.

(** The example host with a clock that the outside moves: the day is the
    sixth once the marker [/tomorrow] is there. *)
Definition dated_host : Host := {|
  sys := gset string;
  path_exists := path_exists host;
  ensure_folder_exists := mkdir;
  copytree := copy;
  get_shotgun_work_dir := get_shotgun_work_dir host;
  get_template_by_name := get_template_by_name host;
  apply_fields := apply_fields host;
  template_repr := template_repr host;
  today := fun dirs =>
    {| year := 2024; month := 3;
       day := if bool_decide ("/tomorrow"%string ∈ dirs) then 6 else 5 |};
  base_settings := base_settings host;
  base_publish := base_publish host;
  base_finalize := base_finalize host
|}.

(** A validated item that lost its asset name. *)
Definition nameless_item : Item := {|
  properties := delete "asset_name" (properties validated_item)
|}.

(** A validated item whose asset name is an absolute path. *)
Definition absolute_name_item : Item := {|
  properties := <["asset_name" := VStr "/tmp/Hero"]> (properties validated_item)
|}.

(** The work area holds the exported asset. *)
Definition exported : gset string := {[ "/work/Content/Characters/Hero"%string ]}.

Definition configured : gmap string Setting :=
  {[ "Publish Template" := {| value := VStr "unreal_asset_publish" |};
     "File Types" := {| value := VNone |} ]}.

Definition unconfigured : gmap string Setting :=
  {[ "Publish Template" := {| value := VNone |};
     "File Types" := {| value := VNone |} ]}.

End ExampleHost.

(** ** Vocabulary of the statements *)

(** The contract of the publisher for the [settings] argument of the
    callbacks: it has a [Setting] for every key of the plugin's schema. *)
Definition matches_schema (h : Host) (s : gmap string Setting) : Prop :=
  dom (settings h) ⊆ dom s.

(** The template the configuration names, when it names one. *)
Definition configured_template (h : Host) (s : gmap string Setting) : option template :=
  match s !! "Publish Template" with
  | Some st => get_template_by_name h (value st)
  | None => None
  end.

(** The property is missing from the item or holds an empty value
    ([None], the empty string, zero or [False]). *)
Definition falsy_property (i : Item) (k : string) : Prop :=
  truthy (default VNone (properties i !! k)) = false.

(** The message [accept] logs when it turns an item down. *)
Definition not_accepting : string :=
  "A publish template could not be determined for the "
  +:+ "asset item. Not accepting the item.".

(** A host-internal asset path [/Game/<seg1>/.../<segN>]. *)
Definition game_path (segs : list string) : string :=
  PyStr.join "/" (""%string :: "Game"%string :: segs).

(** A path segment: a string without a slash. *)
Definition segment (s : string) : Prop := PyStr.contains "/" s = false.

(** [shutil.copytree] does not overwrite: it raises when the destination
    exists. *)
Definition copytree_refuses_existing (h : Host) : Prop :=
  forall src dst s,
    path_exists h s dst = true -> exists e, (copytree h src dst s).1 = inl e.

(** [ensure_folder_exists] creates what is missing and removes nothing. *)
Definition ensure_folder_keeps (h : Host) : Prop :=
  forall p s q,
    path_exists h s q = true ->
    path_exists h (ensure_folder_exists h p s).2 q = true.

(** A component of a normalized path: not empty, not [.], no slash. *)
Definition good_comp (c : string) : Prop :=
  c <> ""%string /\ c <> "."%string /\ segment c.

(** Every [..] of the list stands before all other components, and there
    is none unless [allow]. *)
Fixpoint dotdots_lead (allow : bool) (l : list string) : bool :=
  match l with
  | [] => true
  | c :: l' =>
      if String.eqb c ".." then (allow && dotdots_lead allow l')%bool
      else dotdots_lead false l'
  end.

(** The component lists [posixpath.normpath] ends with: [..] survives
    only at the front of a relative path. *)
Definition normal_comps (slashes : nat) (l : list string) : Prop :=
  Forall good_comp l /\ dotdots_lead (Nat.eqb slashes 0) l = true.

(** The leading slashes of a string and what follows them. *)
Fixpoint lstrip_sep (s : string) : nat * string :=
  match s with
  | EmptyString => (0%nat, EmptyString)
  | String c s' =>
      if Ascii.eqb c "/" then (S (lstrip_sep s').1, (lstrip_sep s').2)
      else (0%nat, s)
  end.

Definition comp_ok (c : string) : bool :=
  (negb (String.eqb c "") && negb (String.eqb c "."))%bool.

(** A well-formed, normalized POSIX path, read off the string alone: it
    is [.], or it has at most two leading slashes and then components
    separated by single slashes, none empty, none [.], with [..] only at
    the front of a relative path; no trailing slash, and not empty. *)
Definition is_normalized (r : string) : bool :=
  (String.eqb r "."
   || let k := (lstrip_sep r).1 in
      let body := (lstrip_sep r).2 in
      if String.eqb body "" then (Nat.eqb k 1 || Nat.eqb k 2)
      else (Nat.leb k 2
            && forallb comp_ok (PyStr.split "/" body)
            && dotdots_lead (Nat.eqb k 0) (PyStr.split "/" body)))%bool.

(** The invariant the specification states of a validated item: [path]
    and [destination_path] are well-formed, normalized paths. *)
Definition validated_normalized (i : Item) : Prop :=
  exists path dest,
    properties i !! "path" = Some (VStr path)
    /\ properties i !! "destination_path" = Some (VStr dest)
    /\ is_normalized path = true
    /\ is_normalized dest = true.

(** What is left of an outcome once its return value is dropped. *)
Definition outcome_unit {A} (r : exn + A) : exn + unit :=
  match r with
  | inl e => inl e
  | inr _ => inr ()
  end.

(** The tail of [publish] once the destination folder is there: copy
    [src] to [dst] and, when that went through, let the base class
    register the publish. *)
Definition copy_and_register (h : Host) (s : gmap string Setting)
    (w : World (sys h)) (s1 : sys h) (d : string) (src dst : string)
  : (exn + unit) * World (sys h) :=
  let calls := trace w ++ [EnsureFolderExists (VStr d); CopyTree src dst] in
  match copytree h src dst s1 with
  | (inl e, s2) => (inl e, {| item := item w; system := s2; trace := calls |})
  | (inr _, s2) =>
      let base := base_publish h s (item w) s2 in
      (outcome_unit base.1.1,
       {| item := base.1.2; system := base.2; trace := calls ++ [BasePublish] |})
  end.

(** A [copytree] that went through has made its destination. *)
Definition copytree_creates (h : Host) : Prop :=
  forall src dst s s',
    copytree h src dst s = (inr (), s') -> path_exists h s' dst = true.

(** The base class's [publish] removes nothing from the file system and
    leaves the two properties the copy destination is made of. *)
Definition base_publish_keeps (h : Host) : Prop :=
  forall st i s,
    (forall q, path_exists h s q = true ->
               path_exists h (base_publish h st i s).2 q = true)
    /\ properties (base_publish h st i s).1.2 !! "destination_path"
       = properties i !! "destination_path"
    /\ properties (base_publish h st i s).1.2 !! "asset_name"
       = properties i !! "asset_name".

(** A call to the logger. *)
Definition is_log (e : event) : Prop := exists msg, e = LogDebug msg.

(** The calls [publish] makes when nothing fails, in their order. *)
Definition publish_calls (d : pyval) (src dst : string) : list event :=
  [EnsureFolderExists d; CopyTree src dst; BasePublish].

(** * Properties *)

Example split_asset_path :
  PyStr.split "/" "/Game/Characters/Hero/Hero_Skeleton"
  = [""; "Game"; "Characters"; "Hero"; "Hero_Skeleton"]%string.
Proof. reflexivity. Qed.

Example slice_asset_path :
  PyStr.slice 2 (-1) [""; "Game"; "Characters"; "Hero"; "Hero_Skeleton"]%string
  = ["Characters"; "Hero"]%string.
Proof. reflexivity. Qed.

Example slice_short : PyStr.slice 2 (-1) [""; "Game"]%string = [].
Proof. reflexivity. Qed.

Example join_work_dir :
  OsPath.join "/work" ["Content"; "Characters/Hero"]%string
  = "/work/Content/Characters/Hero"%string.
Proof. reflexivity. Qed.

Example join_absolute_wins :
  OsPath.join "/work" ["Content"; "/etc"]%string = "/etc"%string.
Proof. reflexivity. Qed.

Example normpath_examples :
  map OsPath.normpath
      ["/pub/2024/3/5/Hero"; "/pub//2024/./3/x/../5/Hero/"; ""; "//a"; "///a";
       "a/../.."; "/.."]%string
  = ["/pub/2024/3/5/Hero"; "/pub/2024/3/5/Hero"; "."; "//a"; "/a"; ".."; "/"]%string.
Proof. reflexivity. Qed.

Example split_examples :
  map OsPath.split ["/pub/2024/3/5/Hero"; "/Hero"; "Hero"; "a//b"; "//x"]%string
  = [("/pub/2024/3/5", "Hero"); ("/", "Hero"); ("", "Hero"); ("a", "b");
     ("//", "x")]%string.
Proof. reflexivity. Qed.

(** ** Splitting and joining on a separator *)

Lemma split_segment (c : ascii) (s : string) :
  PyStr.contains c s = false -> PyStr.split c s = [s].
Proof.
  induction s as [| a s IH]; cbn [PyStr.split PyStr.contains]; [reflexivity |].
  intros H. apply orb_false_iff in H as [Ha Hs].
  rewrite Ha, (IH Hs). reflexivity.
Qed.

Lemma append_nil (s : string) : "" +:+ s = s.
Proof. reflexivity. Qed.

Lemma append_cons (a : ascii) (s t : string) :
  String a s +:+ t = String a (s +:+ t).
Proof. reflexivity. Qed.

Lemma split_app_sep (c : ascii) (s t : string) :
  PyStr.contains c s = false ->
  PyStr.split c (s +:+ String c t) = s :: PyStr.split c t.
Proof.
  induction s as [| a s IH]; cbn [PyStr.contains].
  - intros _. rewrite append_nil. cbn [PyStr.split]. by rewrite Ascii.eqb_refl.
  - intros H. apply orb_false_iff in H as [Ha Hs].
    rewrite append_cons. cbn [PyStr.split]. rewrite Ha, (IH Hs). reflexivity.
Qed.

Lemma join_cons (sp x : string) (y : string) (l : list string) :
  PyStr.join sp (x :: y :: l) = x +:+ sp +:+ PyStr.join sp (y :: l).
Proof. reflexivity. Qed.

(** [sep.join(l).split(sep) == l] for a non-empty list of segments. *)
Lemma split_join (c : ascii) (l : list string) :
  l <> [] ->
  Forall (fun s => PyStr.contains c s = false) l ->
  PyStr.split c (PyStr.join (String c "") l) = l.
Proof.
  induction l as [| x l IH]; [done |]. intros _ Hl.
  apply Forall_cons in Hl as [Hx Hl].
  destruct l as [| y l].
  - cbn. by apply split_segment.
  - rewrite join_cons, append_cons, append_nil.
    rewrite split_app_sep by done. f_equal. by apply IH.
Qed.

Lemma slice_2_m1 {A} (a b : A) (l : list A) :
  PyStr.slice 2 (-1) (a :: b :: l) = removelast l.
Proof.
  unfold PyStr.slice, PyStr.clamp_index. cbn [length drop].
  rewrite removelast_firstn_len.
  replace (Z.to_nat (if 2 <? 0 then _ else Z.min 2 (Z.of_nat (S (S (length l))))))
    with 2%nat by (cbn; lia).
  cbn [drop]. f_equal. cbn. lia.
Qed.

(** ** [os.path.normpath] gives normalized paths *)

Lemma split_sep_cons (c : ascii) (s : string) :
  PyStr.split c (String c s) = ""%string :: PyStr.split c s.
Proof. cbn [PyStr.split]. by rewrite Ascii.eqb_refl. Qed.

(** The fields [split] returns hold no separator. *)
Lemma split_segments (c : ascii) (s : string) :
  Forall (fun x => PyStr.contains c x = false) (PyStr.split c s).
Proof.
  induction s as [| a s IH]; cbn [PyStr.split].
  - by repeat constructor.
  - destruct (Ascii.eqb a c) eqn:Ha.
    + by constructor.
    + destruct (PyStr.split c s) as [| x l].
      * repeat constructor. cbn. by rewrite Ha.
      * apply Forall_cons in IH as [Hx Hl]. constructor; [| done].
        cbn. by rewrite Ha, Hx.
Qed.

Lemma dotdots_lead_snoc (allow : bool) (l : list string) (c : string) :
  c <> ".."%string ->
  dotdots_lead allow (l ++ [c]) = dotdots_lead allow l.
Proof.
  intros Hc%String.eqb_neq. revert allow.
  induction l as [| x l IH]; intros allow; cbn.
  - by rewrite Hc.
  - destruct (String.eqb x ".."); by rewrite IH.
Qed.

Lemma dotdots_lead_before (allow : bool) (l rest : list string) :
  dotdots_lead allow (l ++ ".."%string :: rest) = true ->
  allow = true /\ Forall (eq ".."%string) l.
Proof.
  revert allow. induction l as [| x l IH]; intros allow; cbn.
  - intros [-> _]%andb_true_iff. by split.
  - destruct (String.eqb x "..") eqn:Hx.
    + apply String.eqb_eq in Hx as ->.
      intros [-> H]%andb_true_iff. destruct (IH _ H) as [_ Hl].
      split; [done |]. by constructor.
    + intros H. by destruct (IH _ H).
Qed.

Lemma dotdots_lead_last (allow : bool) (l : list string) :
  dotdots_lead allow l = true -> l <> [] -> List.last l ""%string = ".."%string ->
  allow = true /\ Forall (eq ".."%string) l.
Proof.
  intros Hl Hne Hlast.
  destruct (exists_last Hne) as (l' & x & ->).
  rewrite last_last in Hlast. subst x.
  destruct (dotdots_lead_before allow l' [] Hl) as [-> Hall].
  split; [done |]. apply Forall_app. split; [done | by constructor].
Qed.

Lemma dotdots_lead_all (l : list string) :
  Forall (eq ".."%string) l -> dotdots_lead true (l ++ [".."%string]) = true.
Proof. induction 1 as [| x l <- _ IH]; cbn; [reflexivity | exact IH]. Qed.

Lemma dotdots_lead_removelast (allow : bool) (l : list string) :
  dotdots_lead allow l = true -> dotdots_lead allow (removelast l) = true.
Proof.
  revert allow. induction l as [| x l IH]; intros allow; [done |].
  destruct l as [| y l]; [done |].
  change (removelast (x :: y :: l)) with (x :: removelast (y :: l)).
  cbn [dotdots_lead]. destruct (String.eqb x "..").
  - intros [-> H]%andb_true_iff. by rewrite (IH _ H).
  - apply IH.
Qed.

Lemma Forall_removelast {A} (P : A -> Prop) (l : list A) :
  Forall P l -> Forall P (removelast l).
Proof. rewrite removelast_firstn_len. apply Forall_take. Qed.

(** One round of the loop keeps the components normal. *)
Lemma norm_step_normal (k : nat) (acc : list string) (c : string) :
  normal_comps k acc -> segment c -> normal_comps k (OsPath.norm_step k acc c).
Proof.
  intros [Hgood Hlead] Hc. unfold OsPath.norm_step.
  destruct (String.eqb c "") eqn:He; [done |].
  destruct (String.eqb c ".") eqn:Hd; [done |]. cbn [orb].
  apply String.eqb_neq in He, Hd.
  assert (Hgc : good_comp c) by done.
  destruct (String.eqb c "..") eqn:Hdd; cbn [negb orb].
  2: { apply String.eqb_neq in Hdd. split.
       - apply Forall_app. split; [done | by constructor].
       - by rewrite dotdots_lead_snoc. }
  apply String.eqb_eq in Hdd as ->.
  destruct acc as [| x acc].
  { rewrite bool_decide_eq_true_2 by done. cbn [andb negb orb].
    destruct (Nat.eqb k 0) eqn:Hk; cbn [andb orb].
    - split; [by repeat constructor |]. cbn. by rewrite Hk.
    - by split. }
  rewrite bool_decide_eq_false_2 by done. cbn [andb negb orb].
  rewrite andb_false_r. cbn [orb].
  destruct (String.eqb (List.last (x :: acc) "") "..") eqn:Hlast.
  - apply String.eqb_eq in Hlast.
    destruct (dotdots_lead_last _ _ Hlead ltac:(done) Hlast) as [Hk Hall].
    split; [apply Forall_app; split; [done | by constructor] |].
    rewrite Hk. by apply dotdots_lead_all.
  - split; [by apply Forall_removelast | by apply dotdots_lead_removelast].
Qed.

Lemma norm_fold_normal (k : nat) (l acc : list string) :
  normal_comps k acc -> Forall segment l ->
  normal_comps k (fold_left (OsPath.norm_step k) l acc).
Proof.
  revert acc. induction l as [| c l IH]; intros acc Hacc Hl; [done |].
  apply Forall_cons in Hl as [Hc Hl]. cbn [fold_left].
  apply IH; [by apply norm_step_normal | done].
Qed.

(** Normal components go through the loop unchanged. *)
Lemma norm_fold_fixed (k : nat) (l acc : list string) :
  normal_comps k (acc ++ l) ->
  fold_left (OsPath.norm_step k) l acc = acc ++ l.
Proof.
  revert acc. induction l as [| c l IH]; intros acc Hn.
  - by rewrite app_nil_r.
  - cbn [fold_left].
    assert (Hstep : OsPath.norm_step k acc c = acc ++ [c]).
    { destruct Hn as [Hgood Hlead].
      apply Forall_app in Hgood as [_ Hgood].
      apply Forall_cons in Hgood as [(He & Hd & _) _].
      unfold OsPath.norm_step.
      apply String.eqb_neq in He, Hd. rewrite He, Hd. cbn [orb].
      destruct (String.eqb c "..") eqn:Hdd; cbn [negb orb]; [| done].
      apply String.eqb_eq in Hdd as ->.
      destruct (dotdots_lead_before _ _ _ Hlead) as [Hk Hall].
      rewrite Hk. destruct acc as [| x acc].
      - by rewrite bool_decide_eq_true_2.
      - rewrite bool_decide_eq_false_2 by done. cbn [andb negb orb].
        assert (Hlast : List.last (x :: acc) ""%string = ".."%string).
        { destruct (exists_last (l := x :: acc) ltac:(done)) as (l' & y & Heq).
          rewrite Heq in *. rewrite last_last.
          apply Forall_app in Hall as [_ Hy]. by apply Forall_cons in Hy as [<- _]. }
        by rewrite Hlast. }
    rewrite Hstep. rewrite IH; rewrite <- app_assoc; [done | exact Hn].
Qed.

Lemma initial_slashes_cases (p : string) :
  OsPath.initial_slashes p = 0%nat \/ OsPath.initial_slashes p = 1%nat
  \/ OsPath.initial_slashes p = 2%nat.
Proof.
  unfold OsPath.initial_slashes.
  destruct (PyStr.startswith OsPath.sep_str p); [| by left].
  destruct (_ && _)%bool; auto.
Qed.

Lemma initial_slashes_0 (a : ascii) (rest : string) :
  a <> "/"%char -> OsPath.initial_slashes (String a rest) = 0%nat.
Proof.
  intros Ha. unfold OsPath.initial_slashes, PyStr.startswith, OsPath.sep_str, OsPath.sep.
  cbn [String.prefix]. by destruct (ascii_dec "/" a).
Qed.

Lemma initial_slashes_1 (a : ascii) (rest : string) :
  a <> "/"%char -> OsPath.initial_slashes (String "/" (String a rest)) = 1%nat.
Proof.
  intros Ha. unfold OsPath.initial_slashes, PyStr.startswith, OsPath.sep_str, OsPath.sep.
  cbn [String.prefix PyStr.repeat_char].
  destruct (ascii_dec "/" "/"); [| done]. by destruct (ascii_dec "/" a).
Qed.

Lemma initial_slashes_2 (a : ascii) (rest : string) :
  a <> "/"%char ->
  OsPath.initial_slashes (String "/" (String "/" (String a rest))) = 2%nat.
Proof.
  intros Ha. unfold OsPath.initial_slashes, PyStr.startswith, OsPath.sep_str, OsPath.sep.
  cbn [String.prefix PyStr.repeat_char].
  destruct (ascii_dec "/" "/"); [| done]. by destruct (ascii_dec "/" a).
Qed.

(** A joined list of non-empty segments starts with a character that is
    not the separator. *)
Lemma join_segments_head (comps : list string) :
  Forall (fun c => c <> ""%string /\ segment c) comps -> comps <> [] ->
  exists a rest, PyStr.join "/" comps = String a rest /\ a <> "/"%char.
Proof.
  intros Hgood Hne. destruct comps as [| c cs]; [done |].
  apply Forall_cons in Hgood as [(He & Hseg) _].
  destruct c as [| a c]; [done |].
  unfold segment in Hseg. cbn [PyStr.contains] in Hseg.
  apply orb_false_iff in Hseg as [Ha%Ascii.eqb_neq _].
  destruct cs as [| c' cs].
  - by exists a, c.
  - rewrite join_cons, append_cons. by eexists _, _.
Qed.

Lemma join_good_head (comps : list string) :
  Forall good_comp comps -> comps <> [] ->
  exists a rest, PyStr.join "/" comps = String a rest /\ a <> "/"%char.
Proof.
  intros Hgood. apply join_segments_head.
  eapply Forall_impl; [exact Hgood |]. by intros c (? & _ & ?).
Qed.

Lemma good_comps_segments (comps : list string) :
  Forall good_comp comps ->
  Forall (fun s => PyStr.contains "/" s = false) comps.
Proof. intros H. eapply Forall_impl; [exact H |]. by intros c (_ & _ & Hc). Qed.

Lemma norm_fold_skip_empty (k : nat) (l acc : list string) :
  fold_left (OsPath.norm_step k) (""%string :: l) acc
  = fold_left (OsPath.norm_step k) l acc.
Proof. reflexivity. Qed.

(** A path built from the leading slashes [normpath] keeps and normal
    components is a fixed point of [normpath]. *)
Lemma normpath_normal (k : nat) (comps : list string) :
  (k <= 2)%nat -> normal_comps k comps ->
  let r := PyStr.repeat_char "/" k +:+ PyStr.join "/" comps in
  r <> ""%string -> OsPath.normpath r = r.
Proof.
  intros Hk Hn r Hr. subst r.
  destruct comps as [| c cs].
  { destruct k as [| [| [| k]]]; [done | reflexivity | reflexivity | lia]. }
  destruct Hn as [Hgood Hlead].
  destruct (join_good_head (c :: cs) Hgood ltac:(done)) as (a & rest & Hj & Ha).
  assert (Hsplit : PyStr.split "/" (String a rest) = c :: cs).
  { rewrite <- Hj. change "/"%string with (String "/" "").
    apply split_join; [done | by apply good_comps_segments]. }
  unfold OsPath.normpath in *. change OsPath.sep with "/"%char in *.
  change OsPath.sep_str with "/"%string in *.
  destruct k as [| [| [| k]]]; [| | | lia]; cbn [PyStr.repeat_char] in *;
    rewrite ?append_cons, ?append_nil in *; rewrite Hj in *;
    cbn [String.eqb].
  - rewrite (initial_slashes_0 a rest Ha), Hsplit.
    rewrite (norm_fold_fixed 0 (c :: cs) []) by done.
    cbn [PyStr.repeat_char app]. rewrite append_nil, Hj. reflexivity.
  - rewrite (initial_slashes_1 a rest Ha), split_sep_cons, Hsplit.
    rewrite norm_fold_skip_empty.
    rewrite (norm_fold_fixed 1 (c :: cs) []) by done.
    cbn [PyStr.repeat_char app]. rewrite append_cons, append_nil, Hj. reflexivity.
  - rewrite (initial_slashes_2 a rest Ha), !split_sep_cons, Hsplit.
    rewrite !norm_fold_skip_empty.
    rewrite (norm_fold_fixed 2 (c :: cs) []) by done.
    cbn [PyStr.repeat_char app]. rewrite !append_cons, append_nil, Hj. reflexivity.
Qed.

(** What [normpath] returns: [.] or leading slashes and normal
    components. *)
Lemma normpath_shape (p : string) :
  OsPath.normpath p = "."%string
  \/ exists k comps,
       (k <= 2)%nat /\ normal_comps k comps
       /\ OsPath.normpath p = PyStr.repeat_char "/" k +:+ PyStr.join "/" comps
       /\ PyStr.repeat_char "/" k +:+ PyStr.join "/" comps <> ""%string.
Proof.
  unfold OsPath.normpath.
  destruct (String.eqb p ""); [by left |].
  set (k := OsPath.initial_slashes p).
  set (comps := fold_left (OsPath.norm_step k) (PyStr.split OsPath.sep p) []).
  destruct (String.eqb _ "") eqn:Hr; [by left |].
  apply String.eqb_neq in Hr. right. exists k, comps. split; [| split; [| done]].
  - subst k. destruct (initial_slashes_cases p) as [-> | [-> | ->]]; lia.
  - apply norm_fold_normal; [by split | apply split_segments].
Qed.

(** [normpath(normpath(p)) == normpath(p)]: what [normpath] returns is
    normalized. *)
Lemma normpath_idempotent (p : string) :
  OsPath.normpath (OsPath.normpath p) = OsPath.normpath p.
Proof.
  destruct (normpath_shape p) as [-> | (k & comps & Hk & Hn & -> & Hr)].
  - reflexivity.
  - by apply normpath_normal.
Qed.

(** ** The head of a normalized path *)

Lemma append_assoc (a b c : string) : (a +:+ b) +:+ c = a +:+ b +:+ c.
Proof. induction a as [| x a IH]; [reflexivity |]. by rewrite !append_cons, IH. Qed.

Lemma length_append (a b : string) :
  String.length (a +:+ b) = (String.length a + String.length b)%nat.
Proof. induction a as [| x a IH]; [reflexivity |]. rewrite append_cons. cbn. by rewrite IH. Qed.

Lemma substring_zero (s : string) : String.substring 0 0 s = ""%string.
Proof. by destruct s. Qed.

Lemma substring_all (s : string) : String.substring 0 (String.length s) s = s.
Proof. induction s as [| x s IH]; [reflexivity |]. cbn. by rewrite IH. Qed.

Lemma substring_prefix (a b : string) :
  String.substring 0 (String.length a) (a +:+ b) = a.
Proof.
  induction a as [| x a IH]; [apply substring_zero |].
  rewrite append_cons. cbn. by rewrite IH.
Qed.

Lemma substring_suffix (a b : string) :
  String.substring (String.length a) (String.length b) (a +:+ b) = b.
Proof.
  induction a as [| x a IH]; [apply substring_all |].
  rewrite append_cons. cbn. exact IH.
Qed.

Lemma rfind_none (c : ascii) (s : string) :
  PyStr.contains c s = false -> PyStr.rfind c s = -1.
Proof.
  induction s as [| x s IH]; [reflexivity |]. cbn [PyStr.contains PyStr.rfind].
  intros [Hx Hs]%orb_false_iff. rewrite (IH Hs), Hx. reflexivity.
Qed.

Lemma rfind_last (c : ascii) (a b : string) :
  PyStr.contains c b = false ->
  PyStr.rfind c (a +:+ String c b) = Z.of_nat (String.length a).
Proof.
  intros Hb. induction a as [| x a IH].
  - rewrite append_nil. cbn [PyStr.rfind]. rewrite (rfind_none c b Hb).
    by rewrite Ascii.eqb_refl.
  - rewrite append_cons. cbn [PyStr.rfind String.length]. rewrite IH.
    destruct (0 <=? Z.of_nat (String.length a)) eqn:Hle; [lia |].
    apply Z.leb_gt in Hle. lia.
Qed.

Lemma rstrip_app_sep (c : ascii) (a : string) :
  PyStr.rstrip c (a +:+ String c "") = PyStr.rstrip c a.
Proof.
  induction a as [| x a IH].
  - rewrite append_nil. cbn. by rewrite Ascii.eqb_refl.
  - rewrite append_cons. cbn [PyStr.rstrip]. by rewrite IH.
Qed.

Lemma rstrip_fixed (c : ascii) (a : string) :
  PyStr.endswith c a = false -> PyStr.rstrip c a = a.
Proof.
  induction a as [| x a IH]; [reflexivity |].
  cbn [PyStr.endswith PyStr.rstrip]. destruct a as [| y a].
  - intros ->. reflexivity.
  - intros H. by rewrite (IH H).
Qed.

Lemma rstrip_repeat (c : ascii) (n : nat) :
  PyStr.rstrip c (PyStr.repeat_char c n) = ""%string.
Proof.
  induction n as [| n IH]; [reflexivity |]. cbn [PyStr.repeat_char PyStr.rstrip].
  by rewrite IH, Ascii.eqb_refl.
Qed.

Lemma endswith_segment (c : ascii) (s : string) :
  PyStr.contains c s = false -> PyStr.endswith c s = false.
Proof.
  induction s as [| x s IH]; [reflexivity |]. cbn [PyStr.contains PyStr.endswith].
  intros [Hx Hs]%orb_false_iff. destruct s; [exact Hx | by apply IH].
Qed.

Lemma endswith_append (c : ascii) (a b : string) :
  b <> ""%string -> PyStr.endswith c (a +:+ b) = PyStr.endswith c b.
Proof.
  intros Hb. induction a as [| x a IH]; [reflexivity |].
  rewrite append_cons. cbn [PyStr.endswith].
  destruct (a +:+ b) eqn:Hab; [| exact IH].
  destruct a; [by rewrite append_nil in Hab | by rewrite append_cons in Hab].
Qed.

Lemma join_snoc (sp : string) (l : list string) (x : string) :
  l <> [] -> PyStr.join sp (l ++ [x]) = PyStr.join sp l +:+ sp +:+ x.
Proof.
  induction l as [| y l IH]; [done |]. intros _.
  destruct l as [| z l]; [reflexivity |].
  change ((y :: z :: l) ++ [x]) with (y :: (z :: l) ++ [x]).
  change ((z :: l) ++ [x]) with (z :: l ++ [x]) at 1.
  rewrite !join_cons. change (z :: l ++ [x]) with ((z :: l) ++ [x]).
  rewrite IH by done. by rewrite !append_assoc.
Qed.

Lemma dotdots_lead_prefix (allow : bool) (l l' : list string) :
  dotdots_lead allow (l ++ l') = true -> dotdots_lead allow l = true.
Proof.
  revert allow. induction l as [| x l IH]; intros allow; [done |].
  cbn. destruct (String.eqb x "..").
  - intros [-> H]%andb_true_iff. by rewrite (IH _ H).
  - apply IH.
Qed.

(** [os.path.split] of a path without a slash, and of one with. *)
Lemma os_split_segment (b : string) :
  segment b -> OsPath.split b = (""%string, b).
Proof.
  intros Hb. unfold OsPath.split, PyStr.str_take, PyStr.str_drop.
  change OsPath.sep with "/"%char.
  rewrite (rfind_none _ _ Hb).
  change (Z.to_nat (-1 + 1)) with 0%nat.
  rewrite substring_zero, Nat.sub_0_r, substring_all. reflexivity.
Qed.

Lemma os_split_last (a b : string) :
  segment b ->
  OsPath.split (a +:+ "/" +:+ b) =
    (let head := a +:+ "/" in
     if (negb (String.eqb head "")
         && negb (String.eqb head (PyStr.repeat_char "/" (String.length head))))%bool
     then PyStr.rstrip "/" head else head, b).
Proof.
  intros Hb.
  assert (Hi : Z.to_nat (PyStr.rfind "/" (a +:+ "/" +:+ b) + 1)
               = String.length (a +:+ "/")).
  { rewrite append_cons, append_nil, (rfind_last "/" a b Hb), length_append.
    cbn. lia. }
  unfold OsPath.split, PyStr.str_take, PyStr.str_drop.
  change OsPath.sep with "/"%char. rewrite Hi, <- append_assoc.
  rewrite (length_append (a +:+ "/") b).
  replace (String.length (a +:+ "/") + String.length b
           - String.length (a +:+ "/"))%nat with (String.length b) by lia.
  by rewrite substring_prefix, substring_suffix.
Qed.

Lemma join_good_end (comps : list string) :
  Forall good_comp comps -> comps <> [] ->
  exists pre y, PyStr.join "/" comps = pre +:+ y /\ y <> ""%string /\ segment y.
Proof.
  intros Hgood Hne. destruct (exists_last Hne) as (l & y & ->).
  apply Forall_app in Hgood as [_ Hy].
  apply Forall_cons in Hy as [(He & _ & Hseg) _].
  destruct l as [| x l].
  - by exists ""%string, y.
  - rewrite join_snoc by done. exists (PyStr.join "/" (x :: l) +:+ "/"), y.
    by rewrite append_assoc.
Qed.

(** The head that [os.path.split] gives for a normalized path is empty
    (the path has one relative component) or normalized itself. *)
Lemma split_normal_head (k : nat) (comps : list string) :
  (k <= 2)%nat -> normal_comps k comps ->
  let r := PyStr.repeat_char "/" k +:+ PyStr.join "/" comps in
  r <> ""%string ->
  (OsPath.split r).1 = ""%string
  \/ OsPath.normpath (OsPath.split r).1 = (OsPath.split r).1.
Proof.
  intros Hk Hn r Hr. subst r.
  destruct (decide (comps = [])) as [-> | Hne].
  { destruct k as [| [| [| k]]]; [done | by right | by right | lia]. }
  destruct (exists_last Hne) as (init & last & ->).
  destruct Hn as [Hgood Hlead].
  apply Forall_app in Hgood as [Hinit Hlast].
  apply Forall_cons in Hlast as [(Hle & _ & Hseg) _].
  destruct init as [| x init].
  { cbn [app PyStr.join String.concat].
    destruct k as [| [| [| k]]]; [| | | lia]; cbn [PyStr.repeat_char].
    - rewrite append_nil, (os_split_segment last Hseg). by left.
    - change ("/" +:+ last) with ("" +:+ "/" +:+ last).
      rewrite (os_split_last "" last Hseg). by right.
    - change ("//" +:+ last) with ("/" +:+ "/" +:+ last).
      rewrite (os_split_last "/" last Hseg). by right. }
  rewrite join_snoc by done. rewrite <- append_assoc.
  set (A := PyStr.repeat_char "/" k +:+ PyStr.join "/" (x :: init)).
  rewrite (os_split_last A last Hseg). cbn zeta. cbn [fst].
  destruct (join_good_head (x :: init) Hinit ltac:(done)) as (a & rest & Hj & Ha).
  assert (HA : A <> ""%string).
  { subst A. rewrite Hj. destruct k; [by rewrite append_nil | done]. }
  assert (Hend : PyStr.endswith "/" A = false).
  { destruct (join_good_end (x :: init) Hinit ltac:(done)) as (pre & y & Hy & Hye & Hys).
    subst A. rewrite Hy, <- append_assoc, endswith_append by done.
    by apply endswith_segment. }
  assert (Hstrip : PyStr.rstrip "/" (A +:+ "/") = A).
  { by rewrite rstrip_app_sep, rstrip_fixed. }
  assert (H1 : String.eqb (A +:+ "/") "" = false).
  { apply String.eqb_neq. destruct A; done. }
  assert (H2 : String.eqb (A +:+ "/")
                 (PyStr.repeat_char "/" (String.length (A +:+ "/"))) = false).
  { apply String.eqb_neq. intros Heq.
    rewrite Heq, rstrip_repeat in Hstrip. by subst A. }
  rewrite H1, H2. cbn [negb andb]. rewrite Hstrip. right.
  apply (normpath_normal k (x :: init)); [done | | done].
  split; [done |]. by apply dotdots_lead_prefix in Hlead.
Qed.

Lemma split_normpath_head (p : string) :
  (OsPath.split (OsPath.normpath p)).1 = ""%string
  \/ OsPath.normpath (OsPath.split (OsPath.normpath p)).1
     = (OsPath.split (OsPath.normpath p)).1.
Proof.
  destruct (normpath_shape p) as [-> | (k & comps & Hk & Hn & -> & Hr)].
  - by left.
  - by apply split_normal_head.
Qed.

(** ** Running the monad *)

Ltac hook_step := cbn [fst snd item system trace properties].

Ltac run_hook :=
  unfold accept, validate, publish, finalize, logger_debug, expect_str;
  unfold mbind, mret, M_bind, M_ret, raise, emit, prop_get, prop_set,
    prop_index, call_sys, call_base;
  cbn [fst snd item system trace properties].

(** ** The [settings] property and [accept] *)

Lemma settings_lookup (h : Host) (k : string) :
  settings h !! k =
    if decide (k = "Publish Template"%string)
    then publish_template_setting !! "Publish Template"
    else default ∅ (base_settings h) !! k.
Proof.
  unfold settings, dict_update, publish_template_setting.
  case_decide as Hk.
  - subst k. rewrite lookup_union_l'; [done |].
    rewrite lookup_singleton_eq. eauto.
  - rewrite lookup_union_r; [done |].
    by rewrite lookup_singleton_ne.
Qed.

Lemma schema_has_publish_template (h : Host) (s : gmap string Setting) :
  matches_schema h s -> is_Some (s !! "Publish Template").
Proof.
  intros Hs. apply elem_of_dom, Hs, elem_of_dom.
  rewrite settings_lookup, decide_True by done.
  unfold publish_template_setting. rewrite lookup_singleton_eq. eauto.
Qed.

(** Without the setting, [settings.get] gives [None] and reading its
    [value] raises: the item is left as it was. *)
Lemma accept_without_setting (h : Host) (s : gmap string Setting) (w : World (sys h)) :
  s !! "Publish Template" = None ->
  accept h s w = (inl (AttributeError "value"), w).
Proof. intros Hs. run_hook. by rewrite Hs. Qed.

(** With the setting, [accept] runs to its end. *)
Lemma accept_run (h : Host) (s : gmap string Setting) (w : World (sys h)) :
  matches_schema h s ->
  let tv := template_value (configured_template h s) in
  accept h s w =
    (inr {[ "accepted" := VBool (truthy tv); "checked" := VBool true ]},
     {| item := {| properties := <["publish_template" := tv]> (properties (item w)) |};
        system := system w;
        trace := trace w ++ (if truthy tv then [] else [LogDebug not_accepting]) |}).
Proof.
  intros Hs tv. subst tv.
  destruct (schema_has_publish_template h s Hs) as [st Hst].
  unfold configured_template. run_hook. rewrite Hst.
  destruct (get_template_by_name h (value st)) as [t |]; cbn.
  - by rewrite app_nil_r.
  - reflexivity.
Qed.

(** C4: when the settings follow the plugin's schema and the template they
    name does not resolve, [accept] raises nothing and returns the
    dictionary with [accepted] false (and [checked] true). *)
Theorem accept_unresolved_template_rejects
    (h : Host) (s : gmap string Setting) (w : World (sys h)) :
  matches_schema h s ->
  configured_template h s = None ->
  (accept h s w).1 = inr {[ "accepted" := VBool false; "checked" := VBool true ]}.
Proof.
  intros Hs Hnone. rewrite (accept_run h s w Hs), Hnone. reflexivity.
Qed.

Lemma accept_unresolved_template_rejects_witness :
  (accept ExampleHost.host ExampleHost.unconfigured
     (ExampleHost.world ExampleHost.hero_item ∅)).1
  = inr {[ "accepted" := VBool false; "checked" := VBool true ]}.
Proof.
  apply accept_unresolved_template_rejects.
  - vm_compute. set_solver.
  - reflexivity.
Defined.

(** C9: every call of [accept] that the publisher makes writes
    [item.properties["publish_template"]] with the result of the template
    lookup and touches no other property; when the template does not
    resolve, the call still writes the property, with [None], and returns
    [accepted] false. *)
Theorem accept_always_stashes_template
    (h : Host) (s : gmap string Setting) (w : World (sys h)) :
  matches_schema h s ->
  properties (item (accept h s w).2)
  = <["publish_template" := template_value (configured_template h s)]>
      (properties (item w))
  /\ (configured_template h s = None ->
      properties (item (accept h s w).2) !! "publish_template" = Some VNone
      /\ (accept h s w).1
         = inr {[ "accepted" := VBool false; "checked" := VBool true ]}).
Proof.
  intros Hs. rewrite (accept_run h s w Hs). cbn. split; [reflexivity |].
  intros ->. cbn. split; [apply lookup_insert_eq | reflexivity].
Qed.

Lemma accept_always_stashes_template_witness :
  properties (item (accept ExampleHost.host ExampleHost.unconfigured
                      (ExampleHost.world ExampleHost.hero_item ∅)).2)
    !! "publish_template" = Some VNone.
Proof.
  refine (proj1 (proj2 (accept_always_stashes_template ExampleHost.host
                          ExampleHost.unconfigured
                          (ExampleHost.world ExampleHost.hero_item ∅) _) _)).
  - vm_compute. set_solver.
  - reflexivity.
Defined.

(** C7: the [settings] property is the base class's mapping (the empty one
    when the base has none) with the ["Publish Template"] entry of type
    ["template"] and default [None] put in; every other key reads as in
    the base class. *)
Theorem settings_extends_base (h : Host) (k : string) :
  settings h !! k =
    if decide (k = "Publish Template"%string)
    then Some {| setting_type := "template";
                 setting_default := VNone;
                 setting_description :=
                   "Template path for published work files. Shouldcorrespond to a template defined in templates.yml." |}
    else default ∅ (base_settings h) !! k.
Proof.
  rewrite settings_lookup. case_decide; [| reflexivity].
  unfold publish_template_setting. by rewrite lookup_singleton_eq.
Qed.

(** ** The item filter *)

Lemma fnmatch_literal (pat name : string) :
  Fnmatch.literal pat = true ->
  Fnmatch.fnmatch_pat pat name = String.eqb name pat.
Proof.
  revert name. induction pat as [| c pat IH]; intros name Hlit.
  - destruct name; reflexivity.
  - cbn in Hlit. apply andb_true_iff in Hlit as [Hc Hpat].
    apply andb_true_iff in Hc as [Hstar Hquest].
    apply negb_true_iff in Hstar, Hquest.
    cbn. rewrite Hstar, Hquest.
    destruct name as [| d name]; [reflexivity |].
    rewrite (IH name Hpat). cbn. by rewrite (Ascii.eqb_sym c d).
Qed.

(** C6: [item_filters] is the one-element list of the skeletal mesh type,
    and the publisher presents to [accept] exactly the items of that
    type. *)
Theorem item_filters_skeletal_mesh_only :
  item_filters = ["unreal.asset.SkeletalMesh"%string]
  /\ forall item_type : string,
       presented item_type = String.eqb item_type "unreal.asset.SkeletalMesh".
Proof.
  split; [reflexivity |]. intros item_type.
  unfold presented, item_filters, Fnmatch.fnmatch. cbn [existsb].
  rewrite fnmatch_literal by reflexivity. apply orb_false_r.
Qed.

(** ** [validate] *)

Lemma falsy_missing (i : Item) (k : string) :
  properties i !! k = None -> falsy_property i k.
Proof. unfold falsy_property. by intros ->. Qed.

Lemma falsy_none (i : Item) (k : string) :
  properties i !! k = Some VNone -> falsy_property i k.
Proof. unfold falsy_property. by intros ->. Qed.

Lemma falsy_empty (i : Item) (k : string) :
  properties i !! k = Some (VStr "") -> falsy_property i k.
Proof. unfold falsy_property. by intros ->. Qed.

(** The two early exits of [validate]. *)
Lemma validate_no_asset (h : Host) (s : gmap string Setting) (w : World (sys h)) :
  falsy_property (item w) "asset_path" \/ falsy_property (item w) "asset_name" ->
  validate h s w =
    (inr false,
     {| item := item w; system := system w;
        trace := trace w ++ [LogDebug "Asset path or name not configured."] |}).
Proof.
  unfold falsy_property. intros H. run_hook.
  destruct H as [-> | ->]; cbn; [reflexivity |].
  by rewrite orb_true_r.
Qed.

Lemma validate_no_template (h : Host) (s : gmap string Setting) (w : World (sys h)) :
  ~ falsy_property (item w) "asset_path" ->
  ~ falsy_property (item w) "asset_name" ->
  falsy_property (item w) "publish_template" ->
  validate h s w =
    (inr false,
     {| item := item w; system := system w;
        trace := trace w ++ [LogDebug "No publish template configured."] |}).
Proof.
  unfold falsy_property. intros Hp Hn Ht. run_hook.
  apply not_false_iff_true in Hp, Hn. rewrite Hp, Hn. cbn [negb orb].
  rewrite Ht. reflexivity.
Qed.

(** C5: when [asset_path] or [asset_name] is missing or empty, or the
    item holds no resolved publish template, [validate] returns [False]
    and raises nothing. *)
Theorem validate_missing_property_false
    (h : Host) (s : gmap string Setting) (w : World (sys h)) :
  falsy_property (item w) "asset_path"
  \/ falsy_property (item w) "asset_name"
  \/ falsy_property (item w) "publish_template" ->
  (validate h s w).1 = inr false.
Proof.
  intros H.
  destruct (truthy (default VNone (properties (item w) !! "asset_path"))) eqn:Hp.
  2: { rewrite validate_no_asset; [reflexivity | by left]. }
  destruct (truthy (default VNone (properties (item w) !! "asset_name"))) eqn:Hn.
  2: { rewrite validate_no_asset; [reflexivity | by right]. }
  destruct H as [H | [H | H]]; unfold falsy_property in H; try congruence.
  rewrite validate_no_template; [reflexivity | | | exact H];
    unfold falsy_property; congruence.
Qed.

Lemma validate_missing_property_false_witness :
  (validate ExampleHost.host ExampleHost.configured
     (ExampleHost.world ExampleHost.hero_item ∅)).1 = inr false.
Proof.
  apply validate_missing_property_false.
  right; right. reflexivity.
Defined.

(** C10: a call of [validate] that returns [False] leaves the item as it
    found it: no property is added or changed (nor is the outside). *)
Theorem validate_false_leaves_item
    (h : Host) (s : gmap string Setting) (w : World (sys h)) :
  (validate h s w).1 = inr false ->
  item (validate h s w).2 = item w /\ system (validate h s w).2 = system w.
Proof.
  destruct (truthy (default VNone (properties (item w) !! "asset_path"))) eqn:Hp.
  2: { rewrite validate_no_asset; [done | by left]. }
  destruct (truthy (default VNone (properties (item w) !! "asset_name"))) eqn:Hn.
  2: { rewrite validate_no_asset; [done | by right]. }
  destruct (truthy (default VNone (properties (item w) !! "publish_template"))) eqn:Ht.
  2: { rewrite validate_no_template; [done | | | exact Ht];
       unfold falsy_property; congruence. }
  run_hook. rewrite Hp, Hn. cbn [negb orb]. rewrite Ht. cbn [negb].
  destruct (default VNone (properties (item w) !! "publish_template"));
    cbn; try discriminate.
  destruct (apply_fields h t _); cbn; discriminate.
Qed.

Lemma validate_false_leaves_item_witness :
  item (validate ExampleHost.host ExampleHost.configured
          (ExampleHost.world ExampleHost.hero_item ∅)).2 = ExampleHost.hero_item.
Proof.
  refine (proj1 (validate_false_leaves_item ExampleHost.host ExampleHost.configured
                   (ExampleHost.world ExampleHost.hero_item ∅) _)).
  reflexivity.
Defined.

(** ** [validate], the successful run *)

(** The item once [validate] went through with the publish path [path]. *)
Lemma validate_run (h : Host) (s : gmap string Setting) (w : World (sys h))
    (ap an : pyval) (t : template) :
  properties (item w) !! "asset_path" = Some ap -> truthy ap = true ->
  properties (item w) !! "asset_name" = Some an -> truthy an = true ->
  properties (item w) !! "publish_template" = Some (VTemplate t) ->
  validate h s w =
    let typed := <["publish_type" := VStr "Unreal Folder"]> (properties (item w)) in
    match apply_fields h t (template_fields (today h (system w)) an) with
    | inl e =>
        (inl e, {| item := {| properties := typed |};
                   system := system w; trace := trace w |})
    | inr p =>
        let path := OsPath.normpath p in
        (inr true,
         {| item := {| properties :=
                         <["destination_path" := VStr (OsPath.split path).1]>
                           (<["path" := VStr path]> typed) |};
            system := system w; trace := trace w |})
    end.
Proof.
  intros Hap Tap Han Tan Ht. run_hook.
  rewrite Hap, Han. cbn [from_option id]. rewrite Tap, Tan. cbn [negb orb].
  rewrite Ht. cbn [from_option id truthy negb].
  destruct (apply_fields h t (template_fields (today h (system w)) an)) as [e | p]; reflexivity.
Qed.

(** ** [publish] *)

(** The source directory of an asset under [/Game]. *)
Lemma source_dir_game_path (h : Host) (work_dir : string) (v : pyval)
    (segs : list string) :
  Forall segment segs ->
  py_str h v = game_path segs ->
  source_dir h work_dir v
  = OsPath.join work_dir ["Content"%string; PyStr.join "/" (removelast segs)].
Proof.
  intros Hsegs Hv. unfold source_dir. rewrite Hv. unfold game_path.
  change "/"%string with (String "/" "").
  rewrite split_join; [| done |].
  - by rewrite slice_2_m1.
  - repeat constructor. exact Hsegs.
Qed.

(** [publish] from the point where the destination folder is there. *)
Lemma publish_run (h : Host) (s : gmap string Setting) (w : World (sys h))
    (d n : string) (ap : pyval) (s1 : sys h) :
  properties (item w) !! "destination_path" = Some (VStr d) ->
  properties (item w) !! "asset_path" = Some ap ->
  properties (item w) !! "asset_name" = Some (VStr n) ->
  ensure_folder_exists h (VStr d) (system w) = (inr (), s1) ->
  publish h s w =
    copy_and_register h s w s1 d
      (source_dir h (get_shotgun_work_dir h s1) ap) (OsPath.join d [n]).
Proof.
  intros Hd Hap Hn Hmk. unfold copy_and_register. run_hook.
  rewrite Hd. hook_step. rewrite Hmk. hook_step. rewrite Hap. hook_step.
  rewrite Hn. hook_step.
  destruct (copytree h _ _ s1) as [[e | []] s2]; hook_step.
  - by rewrite <- app_assoc.
  - destruct (base_publish h s (item w) s2) as [[[e | v] i] s3]; cbn;
      by rewrite <- !app_assoc.
Qed.

(** Under the work directory: when the rest does not start with a slash,
    [os.path.join] appends it to the [Content] directory. *)
Lemma join_content (work_dir rest : string) :
  PyStr.startswith "/" rest = false ->
  OsPath.join work_dir ["Content"%string; rest]
  = OsPath.join work_dir ["Content"%string] +:+ "/" +:+ rest.
Proof.
  intros Hrest. unfold OsPath.join. cbn [fold_left].
  set (base := OsPath.join_step work_dir "Content").
  assert (Hbase : exists pre, base = pre +:+ "Content").
  { subst base. unfold OsPath.join_step.
    change (PyStr.startswith OsPath.sep_str "Content") with false. cbn match.
    destruct (_ || _)%bool; [by eexists |].
    exists (work_dir +:+ OsPath.sep_str). by rewrite append_assoc. }
  destruct Hbase as [pre Hbase]. unfold OsPath.join_step at 1.
  change OsPath.sep_str with "/"%string. change OsPath.sep with "/"%char.
  rewrite Hrest.
  assert (Hend : PyStr.endswith "/" base = false).
  { rewrite Hbase, endswith_append by done. reflexivity. }
  assert (Hne : String.eqb base "" = false).
  { apply String.eqb_neq. rewrite Hbase. destruct pre; done. }
  by rewrite Hne, Hend.
Qed.

Lemma join_segments_relative (segs : list string) :
  Forall (fun c => c <> ""%string /\ segment c) segs ->
  PyStr.startswith "/" (PyStr.join "/" segs) = false.
Proof.
  intros Hsegs. destruct (decide (segs = [])) as [-> | Hne]; [reflexivity |].
  destruct (join_segments_head segs Hsegs Hne) as (a & rest & -> & Ha).
  unfold PyStr.startswith. cbn [String.prefix]. by destruct (ascii_dec "/" a).
Qed.

(** C1: for an asset path [/Game/<seg1>/.../<segN>], [publish] takes as
    source the work directory joined with [Content] and the segments but
    the last, and copies it to the destination path joined with the asset
    name, before it hands over to the base class.  With no empty segment,
    the source is the [Content] directory of the work directory, a slash
    and the remaining segments. *)
Theorem publish_copies_content_dir
    (h : Host) (s : gmap string Setting) (w : World (sys h))
    (segs : list string) (ap : pyval) (d n : string) (s1 : sys h) :
  Forall segment segs ->
  py_str h ap = game_path segs ->
  properties (item w) !! "asset_path" = Some ap ->
  properties (item w) !! "destination_path" = Some (VStr d) ->
  properties (item w) !! "asset_name" = Some (VStr n) ->
  ensure_folder_exists h (VStr d) (system w) = (inr (), s1) ->
  let work_dir := get_shotgun_work_dir h s1 in
  let src :=
    OsPath.join work_dir ["Content"%string; PyStr.join "/" (removelast segs)] in
  publish h s w = copy_and_register h s w s1 d src (OsPath.join d [n])
  /\ (Forall (fun seg => seg <> ""%string) segs ->
      src = OsPath.join work_dir ["Content"%string]
            +:+ "/" +:+ PyStr.join "/" (removelast segs)).
Proof.
  intros Hsegs Hpath Hap Hd Hn Hmk work_dir src. split.
  - rewrite (publish_run h s w d n ap s1 Hd Hap Hn Hmk).
    by rewrite (source_dir_game_path h _ ap segs Hsegs Hpath).
  - intros Hne. apply join_content, join_segments_relative.
    apply Forall_removelast, Forall_and. by split.
Qed.

Lemma publish_copies_content_dir_witness :
  trace (publish ExampleHost.host ExampleHost.configured
           (ExampleHost.world ExampleHost.validated_item ExampleHost.exported)).2
  = [EnsureFolderExists (VStr "/pub/2024/3/5");
     CopyTree "/work/Content/Characters/Hero" "/pub/2024/3/5/Hero";
     BasePublish].
Proof.
  destruct (publish_copies_content_dir ExampleHost.host ExampleHost.configured
              (ExampleHost.world ExampleHost.validated_item ExampleHost.exported)
              ["Characters"; "Hero"; "Hero_Skeleton"]%string
              (VObject "/Game/Characters/Hero/Hero_Skeleton")
              "/pub/2024/3/5" "Hero"
              ({[ "/pub/2024/3/5"%string ]} ∪ ExampleHost.exported))
    as [Hpub _];
    [repeat constructor | reflexivity | reflexivity | reflexivity | reflexivity
    | reflexivity |].
  rewrite Hpub. vm_compute. reflexivity.
Defined.

(** When nothing about the parts is special, [os.path.join] puts one
    slash between them. *)
Lemma join_plain (a b : string) :
  a <> ""%string ->
  PyStr.endswith "/" a = false ->
  PyStr.startswith "/" b = false ->
  OsPath.join a [b] = a +:+ "/" +:+ b.
Proof.
  intros Ha Hend Hb. unfold OsPath.join, OsPath.join_step. cbn [fold_left].
  change OsPath.sep_str with "/"%string. change OsPath.sep with "/"%char.
  rewrite Hb, Hend. apply String.eqb_neq in Ha. by rewrite Ha.
Qed.

(** C3: on a host where [copytree] does not overwrite and
    [ensure_folder_exists] removes nothing, [publish] ends with an
    exception when the place it copies to exists; the base class is not
    called and the item is as it was. *)
Theorem publish_refuses_existing_destination
    (h : Host) (s : gmap string Setting) (w : World (sys h)) (d n : string) :
  copytree_refuses_existing h ->
  ensure_folder_keeps h ->
  properties (item w) !! "destination_path" = Some (VStr d) ->
  properties (item w) !! "asset_name" = Some (VStr n) ->
  path_exists h (system w) (OsPath.join d [n]) = true ->
  (exists e, (publish h s w).1 = inl e)
  /\ item (publish h s w).2 = item w
  /\ exists calls, trace (publish h s w).2 = trace w ++ calls
                   /\ BasePublish ∉ calls.
Proof.
  intros Hcopy Hkeep Hd Hn Hex.
  specialize (Hkeep (VStr d) (system w) _ Hex).
  destruct (ensure_folder_exists h (VStr d) (system w)) as [[e | []] s1] eqn:Hmk.
  { run_hook. rewrite Hd. cbn. rewrite Hmk. cbn.
    split; [eauto |]. split; [reflexivity |].
    exists [EnsureFolderExists (VStr d)]. split; [reflexivity |].
    by intros ?%list_elem_of_singleton. }
  destruct (properties (item w) !! "asset_path") as [ap |] eqn:Hap.
  2: { run_hook. rewrite Hd. cbn. rewrite Hmk. cbn. rewrite Hap. cbn.
       split; [eauto |]. split; [reflexivity |].
       exists [EnsureFolderExists (VStr d)]. split; [reflexivity |].
       by intros ?%list_elem_of_singleton. }
  rewrite (publish_run h s w d n ap s1 Hd Hap Hn Hmk). unfold copy_and_register.
  cbn in Hkeep.
  destruct (Hcopy (source_dir h (get_shotgun_work_dir h s1) ap) _ s1 Hkeep)
    as [e He].
  destruct (copytree h _ _ s1) as [[e' | []] s2]; cbn in He; [| discriminate].
  cbn. split; [eauto |]. split; [reflexivity |].
  eexists. split; [reflexivity |].
  intros Hin. repeat (apply elem_of_cons in Hin as [Hin | Hin]; [discriminate |]).
  by apply elem_of_nil in Hin.
Qed.

Lemma example_copy_refuses : copytree_refuses_existing ExampleHost.host.
Proof.
  intros src dst dirs Hex. cbn in *. unfold ExampleHost.copy.
  rewrite Hex. destruct (negb _); eauto.
Defined.

Lemma example_mkdir_keeps : ensure_folder_keeps ExampleHost.host.
Proof.
  intros p dirs q Hex. cbn in *. apply bool_decide_eq_true in Hex.
  apply bool_decide_eq_true. destruct p; cbn; set_solver.
Defined.

Lemma publish_refuses_existing_destination_witness :
  exists e,
    (publish ExampleHost.host ExampleHost.configured
       (ExampleHost.world ExampleHost.validated_item
          ({[ "/pub/2024/3/5/Hero"%string ]} ∪ ExampleHost.exported))).1 = inl e.
Proof.
  refine (proj1 (publish_refuses_existing_destination ExampleHost.host
                   ExampleHost.configured _ "/pub/2024/3/5" "Hero"
                   example_copy_refuses example_mkdir_keeps _ _ _)).
  - reflexivity.
  - reflexivity.
  - vm_compute. reflexivity.
Defined.

(** ** [finalize] *)

(** C8: [finalize] makes one call, the base class's [finalize] with the
    same settings and item; the item, the outside and the exception it
    ends with are the base class's, and its value is dropped ([finalize]
    returns [None]). *)
Theorem finalize_is_base_finalize
    (h : Host) (s : gmap string Setting) (w : World (sys h)) :
  let base := base_finalize h s (item w) (system w) in
  finalize h s w =
    (outcome_unit base.1.1,
     {| item := base.1.2; system := base.2; trace := trace w ++ [BaseFinalize] |}).
Proof.
  run_hook. destruct (base_finalize h s (item w) (system w)) as [[[e | v] i] s'];
    reflexivity.
Qed.

(** ** The hook on the example host *)

Example accept_hero :
  accept ExampleHost.host ExampleHost.configured
    (ExampleHost.world ExampleHost.hero_item ∅)
  = (inr {[ "accepted" := VBool true; "checked" := VBool true ]},
     ExampleHost.world ExampleHost.accepted_item ∅).
Proof. reflexivity. Qed.

Example publish_hero :
  publish ExampleHost.host ExampleHost.configured
    (ExampleHost.world ExampleHost.validated_item ExampleHost.exported)
  = (inr (),
     {| item := ExampleHost.validated_item;
        system := {[ "/pub/2024/3/5/Hero"%string ]}
                  ∪ ({[ "/pub/2024/3/5"%string ]} ∪ ExampleHost.exported);
        trace := [EnsureFolderExists (VStr "/pub/2024/3/5");
                  CopyTree "/work/Content/Characters/Hero" "/pub/2024/3/5/Hero";
                  BasePublish] |}).
Proof. vm_compute. reflexivity. Qed.

(** A path of one relative component has the empty head. *)
Example relative_destination :
  (OsPath.split (OsPath.normpath "Hero")).1 = ""%string.
Proof. reflexivity. Qed.

(** * Further properties *)

(** ** [split] and [join] *)

Lemma split_nonempty (c : ascii) (s : string) : PyStr.split c s <> [].
Proof.
  destruct s as [| a s]; cbn [PyStr.split]; [done |].
  destruct (Ascii.eqb a c); [done |]. by destruct (PyStr.split c s).
Qed.

Lemma join_cons_head (sp : string) (a : ascii) (x : string) (l : list string) :
  PyStr.join sp (String a x :: l) = String a (PyStr.join sp (x :: l)).
Proof. destruct l as [| y l]; [reflexivity |]. by rewrite !join_cons, append_cons. Qed.

(** X1: joining the fields of [s.split(c)] with [c] gives [s] back, for
    every string. *)
Theorem join_split_roundtrip (c : ascii) (s : string) :
  PyStr.join (String c "") (PyStr.split c s) = s.
Proof.
  induction s as [| a s IH]; [reflexivity |]. cbn [PyStr.split].
  destruct (Ascii.eqb a c) eqn:Ha.
  - apply Ascii.eqb_eq in Ha as ->.
    destruct (PyStr.split c s) as [| x l] eqn:Hs; [by destruct (split_nonempty c s) |].
    by rewrite join_cons, append_nil, append_cons, append_nil, IH.
  - destruct (PyStr.split c s) as [| x l] eqn:Hs; [by destruct (split_nonempty c s) |].
    by rewrite join_cons_head, IH.
Qed.

(** X2: splitting the join of a non-empty list of slash-free segments
    gives the list back, so the fields of an asset path are its
    segments. *)
Theorem split_join_roundtrip (l : list string) :
  l <> [] -> Forall segment l ->
  PyStr.split "/" (PyStr.join "/" l) = l.
Proof.
  intros Hne Hl. change "/"%string with (String "/" ""). by apply split_join.
Qed.

Lemma split_join_roundtrip_witness :
  PyStr.split "/" (PyStr.join "/" [""; "Game"; "Hero"]%string)
  = [""; "Game"; "Hero"]%string.
Proof. apply split_join_roundtrip; [done | by repeat constructor]. Defined.

(** ** The source directory at the edges *)

Lemma slice_2_m1_short {A} (l : list A) :
  (length l <= 3)%nat -> PyStr.slice 2 (-1) l = [].
Proof.
  destruct l as [| a [| b [| c [| d l]]]]; cbn [length]; intros H;
    [reflexivity | reflexivity | reflexivity | reflexivity | lia].
Qed.

(** X3: an asset path with at most two slashes (as [/Game/Hero], or a
    bare name) has nothing left after the slice, and the source is the
    whole [Content] directory of the work area, with a trailing slash. *)
Theorem source_dir_short_path (h : Host) (work_dir : string) (v : pyval) :
  (length (PyStr.split "/" (py_str h v)) <= 3)%nat ->
  source_dir h work_dir v = OsPath.join work_dir ["Content"%string] +:+ "/".
Proof.
  intros Hlen. unfold source_dir. rewrite (slice_2_m1_short _ Hlen).
  change (PyStr.join "/" []) with ""%string.
  by rewrite join_content.
Qed.

Lemma source_dir_short_path_witness :
  source_dir ExampleHost.host "/work" (VStr "/Game/Hero") = "/work/Content/"%string.
Proof. apply (source_dir_short_path ExampleHost.host "/work"). vm_compute. lia. Defined.

Lemma startswith_sep_cons (s : string) :
  PyStr.startswith "/" (String "/" s) = true.
Proof.
  unfold PyStr.startswith. cbn [String.prefix].
  destruct (ascii_dec "/" "/"); [by destruct s | done].
Qed.

Lemma join_absolute (a b : string) (l : list string) :
  PyStr.startswith "/" b = true -> OsPath.join a (l ++ [b]) = b.
Proof.
  intros Hb. unfold OsPath.join. rewrite fold_left_app. cbn [fold_left].
  unfold OsPath.join_step. change OsPath.sep_str with "/"%string. by rewrite Hb.
Qed.

(** X4: an empty segment right after [/Game] makes what is left of the
    asset path start with a slash, and [os.path.join] then drops the work
    directory and [Content]: the source is that absolute path, whatever
    the work directory. *)
Theorem source_dir_escapes_work_dir
    (h : Host) (work_dir : string) (v : pyval) (x : string) (l : list string) :
  Forall segment (x :: l) -> l <> [] ->
  py_str h v = game_path (""%string :: x :: l) ->
  source_dir h work_dir v = "/" +:+ PyStr.join "/" (removelast (x :: l)).
Proof.
  intros Hsegs Hne Hv.
  rewrite (source_dir_game_path h work_dir v (""%string :: x :: l)); [| | done].
  2: { by constructor. }
  change (removelast (""%string :: x :: l)) with (""%string :: removelast (x :: l)).
  destruct l as [| y l]; [done |].
  change (removelast (x :: y :: l)) with (x :: removelast (y :: l)).
  rewrite join_cons, append_nil, append_cons, append_nil.
  apply (join_absolute work_dir _ ["Content"%string]), startswith_sep_cons.
Qed.

Lemma source_dir_escapes_work_dir_witness :
  source_dir ExampleHost.host "/work" (VStr "/Game//etc/passwd") = "/etc"%string.
Proof.
  apply (source_dir_escapes_work_dir ExampleHost.host "/work"
           (VStr "/Game//etc/passwd") "etc" ["passwd"%string]).
  - by repeat constructor.
  - done.
  - reflexivity.
Defined.

(** ** [os.path.split] and [os.path.join] *)

Lemma segment_relative (s : string) :
  segment s -> PyStr.startswith "/" s = false.
Proof.
  destruct s as [| a s]; [reflexivity |]. unfold segment. cbn [PyStr.contains].
  intros [Ha%Ascii.eqb_neq _]%orb_false_iff.
  unfold PyStr.startswith. cbn [String.prefix]. by destruct (ascii_dec "/" a).
Qed.

Lemma last_sep_decompose (p : string) :
  segment p \/ exists a b, p = a +:+ "/" +:+ b /\ segment b.
Proof.
  induction p as [| x p IH]; [by left |].
  destruct IH as [Hp | (a & b & -> & Hb)].
  - destruct (Ascii.eqb x "/") eqn:Hx.
    + apply Ascii.eqb_eq in Hx as ->. right. by exists ""%string, p.
    + left. unfold segment in *. cbn [PyStr.contains]. by rewrite Hx, Hp.
  - right. by exists (String x a), b.
Qed.

Lemma rstrip_decompose (c : ascii) (s : string) :
  exists n, s = PyStr.rstrip c s +:+ PyStr.repeat_char c n.
Proof.
  induction s as [| a s [n IH]]; [by exists 0%nat |].
  cbn [PyStr.rstrip]. destruct (PyStr.rstrip c s) as [| b r] eqn:Hr.
  - rewrite append_nil in IH. destruct (Ascii.eqb a c) eqn:Ha.
    + apply Ascii.eqb_eq in Ha as ->. exists (S n). by rewrite IH at 1.
    + exists n. by rewrite IH at 1.
  - exists n. by rewrite IH at 1.
Qed.

(** X5: for every path, the tail that [os.path.split] returns holds no
    slash, and head, some slashes and tail make up the path again. *)
Theorem os_split_partition (p : string) :
  segment (OsPath.split p).2
  /\ exists n, p = (OsPath.split p).1 +:+ PyStr.repeat_char "/" n +:+ (OsPath.split p).2.
Proof.
  destruct (last_sep_decompose p) as [Hp | (a & b & -> & Hb)].
  - rewrite (os_split_segment p Hp). split; [done |]. by exists 0%nat.
  - rewrite (os_split_last a b Hb). cbn zeta. split; [done |]. cbn [fst snd].
    destruct (_ && _)%bool.
    + destruct (rstrip_decompose "/" (a +:+ "/")) as [n Hn]. exists n.
      rewrite <- !append_assoc. f_equal. exact Hn.
    + exists 0%nat. cbn [PyStr.repeat_char]. by rewrite append_nil, append_assoc.
Qed.

(** The two parts [os.path.split] cuts a normalized path into. *)
Lemma os_split_normal (k : nat) (init : list string) (last : string) :
  (k <= 2)%nat -> normal_comps k (init ++ [last]) ->
  OsPath.split (PyStr.repeat_char "/" k +:+ PyStr.join "/" (init ++ [last]))
  = (PyStr.repeat_char "/" k +:+ PyStr.join "/" init, last).
Proof.
  intros Hk [Hgood Hlead].
  apply Forall_app in Hgood as [Hinit Hlast].
  apply Forall_cons in Hlast as [(Hle & _ & Hseg) _].
  destruct init as [| x init].
  { cbn [app PyStr.join String.concat].
    destruct k as [| [| [| k]]]; [| | | lia]; cbn [PyStr.repeat_char].
    - by rewrite append_nil, (os_split_segment last Hseg).
    - change ("/" +:+ last) with ("" +:+ "/" +:+ last).
      by rewrite (os_split_last "" last Hseg).
    - change ("//" +:+ last) with ("/" +:+ "/" +:+ last).
      by rewrite (os_split_last "/" last Hseg). }
  rewrite join_snoc by done. rewrite <- append_assoc.
  set (A := PyStr.repeat_char "/" k +:+ PyStr.join "/" (x :: init)).
  rewrite (os_split_last A last Hseg). cbn zeta.
  destruct (join_good_head (x :: init) Hinit ltac:(done)) as (a & rest & Hj & Ha).
  assert (HA : A <> ""%string).
  { subst A. rewrite Hj. destruct k; [by rewrite append_nil | done]. }
  assert (Hend : PyStr.endswith "/" A = false).
  { destruct (join_good_end (x :: init) Hinit ltac:(done)) as (pre & y & Hy & Hye & Hys).
    subst A. rewrite Hy, <- append_assoc, endswith_append by done.
    by apply endswith_segment. }
  assert (Hstrip : PyStr.rstrip "/" (A +:+ "/") = A).
  { by rewrite rstrip_app_sep, rstrip_fixed. }
  assert (H1 : String.eqb (A +:+ "/") "" = false).
  { apply String.eqb_neq. destruct A; done. }
  assert (H2 : String.eqb (A +:+ "/")
                 (PyStr.repeat_char "/" (String.length (A +:+ "/"))) = false).
  { apply String.eqb_neq. intros Heq.
    rewrite Heq, rstrip_repeat in Hstrip. by subst A. }
  by rewrite H1, H2, Hstrip.
Qed.

Lemma os_join_split_normal (k : nat) (comps : list string) :
  (k <= 2)%nat -> normal_comps k comps ->
  let r := PyStr.repeat_char "/" k +:+ PyStr.join "/" comps in
  r <> ""%string ->
  OsPath.join (OsPath.split r).1 [(OsPath.split r).2] = r.
Proof.
  intros Hk Hn r Hr. subst r.
  destruct (decide (comps = [])) as [-> | Hne].
  { destruct k as [| [| [| k]]]; [done | reflexivity | reflexivity | lia]. }
  destruct (exists_last Hne) as (init & last & ->).
  rewrite (os_split_normal k init last Hk Hn). cbn [fst snd].
  destruct Hn as [Hgood Hlead].
  apply Forall_app in Hgood as [Hinit Hlast].
  apply Forall_cons in Hlast as [(Hle & _ & Hseg) _].
  pose proof (segment_relative last Hseg) as Hrel.
  destruct init as [| x init].
  { cbn [app PyStr.join String.concat]. unfold OsPath.join, OsPath.join_step.
    cbn [fold_left]. change OsPath.sep_str with "/"%string.
    change OsPath.sep with "/"%char. rewrite Hrel.
    by destruct k as [| [| [| k]]]; [| | | lia]. }
  rewrite join_snoc by done. rewrite <- append_assoc.
  set (A := PyStr.repeat_char "/" k +:+ PyStr.join "/" (x :: init)).
  destruct (join_good_head (x :: init) Hinit ltac:(done)) as (a & rest & Hj & Ha).
  apply join_plain; [| | done].
  - subst A. rewrite Hj. destruct k; [by rewrite append_nil | done].
  - destruct (join_good_end (x :: init) Hinit ltac:(done)) as (pre & y & Hy & Hye & Hys).
    subst A. rewrite Hy, <- append_assoc, endswith_append by done.
    by apply endswith_segment.
Qed.

(** X6: for a normalized path, joining the head and the tail that
    [os.path.split] gives is the path again. *)
Theorem os_join_split_normpath (p : string) :
  OsPath.join (OsPath.split (OsPath.normpath p)).1
    [(OsPath.split (OsPath.normpath p)).2]
  = OsPath.normpath p.
Proof.
  destruct (normpath_shape p) as [-> | (k & comps & Hk & Hn & -> & Hr)].
  - reflexivity.
  - by apply os_join_split_normal.
Qed.

(** ** [accept], all of its runs *)

(** X7: when the settings hold no ["Publish Template"] entry,
    [settings.get] gives [None], reading its [value] raises
    [AttributeError], and the item, the outside and the log are as they
    were: nothing is stashed. *)
Theorem accept_missing_setting_raises
    (h : Host) (s : gmap string Setting) (w : World (sys h)) :
  s !! "Publish Template" = None ->
  accept h s w = (inl (AttributeError "value"), w).
Proof. apply accept_without_setting. Qed.

Lemma accept_missing_setting_raises_witness :
  accept ExampleHost.host ∅ (ExampleHost.world ExampleHost.hero_item ∅)
  = (inl (AttributeError "value"), ExampleHost.world ExampleHost.hero_item ∅).
Proof. apply accept_missing_setting_raises. reflexivity. Defined.

(** X8: with settings that follow the schema, [accepted] is [True]
    exactly when the configured template resolves and [checked] is always
    [True]; [accept] leaves the outside alone, and logs one debug line
    when, and only when, it turns the item down. *)
Theorem accept_accepted_iff_resolved
    (h : Host) (s : gmap string Setting) (w : World (sys h)) :
  matches_schema h s ->
  (accept h s w).1
  = inr {[ "accepted" := VBool (bool_decide (is_Some (configured_template h s)));
           "checked" := VBool true ]}
  /\ system (accept h s w).2 = system w
  /\ trace (accept h s w).2
     = trace w ++ (if bool_decide (is_Some (configured_template h s))
                   then [] else [LogDebug not_accepting]).
Proof.
  intros Hs. rewrite (accept_run h s w Hs). cbn [fst snd system trace].
  destruct (configured_template h s) as [t |]; cbn [template_value truthy].
  - rewrite bool_decide_eq_true_2 by eauto. done.
  - rewrite bool_decide_eq_false_2 by (by intros [? ?]). done.
Qed.

Lemma accept_accepted_iff_resolved_witness :
  (accept ExampleHost.host ExampleHost.configured
     (ExampleHost.world ExampleHost.hero_item ∅)).1
  = inr {[ "accepted" := VBool true; "checked" := VBool true ]}.
Proof.
  refine (eq_trans (proj1 (accept_accepted_iff_resolved ExampleHost.host
                             ExampleHost.configured
                             (ExampleHost.world ExampleHost.hero_item ∅) _)) _).
  - vm_compute. set_solver.
  - reflexivity.
Defined.

(** ** [validate], all of its runs *)

Lemma truthy_lookup (i : Item) (k : string) :
  truthy (default VNone (properties i !! k)) = true ->
  exists v, properties i !! k = Some v /\ truthy v = true.
Proof. destruct (properties i !! k) as [v |]; [by exists v | done]. Qed.

Lemma validate_falsy_template
    (h : Host) (s : gmap string Setting) (w : World (sys h)) :
  falsy_property (item w) "publish_template" -> (validate h s w).1 = inr false.
Proof.
  intros Ht.
  destruct (truthy (default VNone (properties (item w) !! "asset_path"))) eqn:Hp.
  2: { rewrite validate_no_asset; [reflexivity | by left]. }
  destruct (truthy (default VNone (properties (item w) !! "asset_name"))) eqn:Hn.
  2: { rewrite validate_no_asset; [reflexivity | by right]. }
  rewrite validate_no_template; [reflexivity | | | exact Ht];
    unfold falsy_property; congruence.
Qed.

(** The run of [validate] past both early exits, whatever the
    [publish_template] property holds. *)
Lemma validate_past_exits (h : Host) (s : gmap string Setting) (w : World (sys h))
    (ap an tv : pyval) :
  properties (item w) !! "asset_path" = Some ap -> truthy ap = true ->
  properties (item w) !! "asset_name" = Some an -> truthy an = true ->
  properties (item w) !! "publish_template" = Some tv -> truthy tv = true ->
  (forall t, tv <> VTemplate t) ->
  validate h s w =
    (inl (AttributeError "apply_fields"),
     {| item := {| properties := <["publish_type" := VStr "Unreal Folder"]>
                                   (properties (item w)) |};
        system := system w; trace := trace w |}).
Proof.
  intros Hap Tap Han Tan Ht Tt Hnt. run_hook.
  rewrite Hap, Han. cbn [from_option id]. rewrite Tap, Tan. cbn [negb orb].
  rewrite Ht. cbn [from_option id]. rewrite Tt. cbn [negb].
  destruct tv; try reflexivity. by destruct (Hnt t).
Qed.

(** X9: [validate] leaves the outside as it was: it makes no folder,
    copies nothing and does not call the base class.  Of the calls that
    can change something it makes only the one to the logger: one debug
    line when it returns [False], none when it returns [True] or raises.
    (It also reads the date and asks the template to resolve; these are
    queries and leave no event.) *)
Theorem validate_frame (h : Host) (s : gmap string Setting) (w : World (sys h)) :
  system (validate h s w).2 = system w
  /\ exists logs,
       trace (validate h s w).2 = trace w ++ logs
       /\ Forall is_log logs
       /\ length logs = match (validate h s w).1 with
                        | inr false => 1%nat
                        | _ => 0%nat
                        end.
Proof.
  destruct (truthy (default VNone (properties (item w) !! "asset_path"))) eqn:Hp.
  2: { rewrite validate_no_asset by (by left). split; [done |].
       eexists [_]. split; [done |]. split; [| done]. repeat constructor. by eexists. }
  destruct (truthy (default VNone (properties (item w) !! "asset_name"))) eqn:Hn.
  2: { rewrite validate_no_asset by (by right). split; [done |].
       eexists [_]. split; [done |]. split; [| done]. repeat constructor. by eexists. }
  destruct (truthy (default VNone (properties (item w) !! "publish_template"))) eqn:Ht.
  2: { rewrite validate_no_template; [| unfold falsy_property; congruence ..].
       split; [done |]. eexists [_].
       split; [done |]. split; [| done]. repeat constructor. by eexists. }
  apply truthy_lookup in Hp as (ap & Hap & Tap).
  apply truthy_lookup in Hn as (an & Han & Tan).
  apply truthy_lookup in Ht as (tv & Htv & Ttv).
  assert (Hcases : (exists t, tv = VTemplate t) \/ (forall t, tv <> VTemplate t)).
  { destruct tv; eauto. }
  destruct Hcases as [[t ->] | Hnt].
  - rewrite (validate_run h s w ap an t Hap Tap Han Tan Htv). cbn zeta.
    destruct (apply_fields h t (template_fields (today h (system w)) an)) as [e | p];
      (split; [done |]); exists []; by rewrite app_nil_r.
  - rewrite (validate_past_exits h s w ap an tv Hap Tap Han Tan Htv Ttv Hnt).
    split; [done |]. exists []. by rewrite app_nil_r.
Qed.

(** X10: [validate] returns [True] only for an item with a non-empty
    [asset_path] and [asset_name] and a template object whose fields
    resolve. *)
Theorem validate_true_only_if
    (h : Host) (s : gmap string Setting) (w : World (sys h)) :
  (validate h s w).1 = inr true ->
  exists ap an t p,
    properties (item w) !! "asset_path" = Some ap /\ truthy ap = true
    /\ properties (item w) !! "asset_name" = Some an /\ truthy an = true
    /\ properties (item w) !! "publish_template" = Some (VTemplate t)
    /\ apply_fields h t (template_fields (today h (system w)) an) = inr p.
Proof.
  destruct (truthy (default VNone (properties (item w) !! "asset_path"))) eqn:Hp.
  2: { rewrite validate_no_asset; [done | by left]. }
  destruct (truthy (default VNone (properties (item w) !! "asset_name"))) eqn:Hn.
  2: { rewrite validate_no_asset; [done | by right]. }
  destruct (truthy (default VNone (properties (item w) !! "publish_template"))) eqn:Ht.
  2: { rewrite validate_no_template; [done | unfold falsy_property; congruence ..]. }
  apply truthy_lookup in Hp as (ap & Hap & Tap).
  apply truthy_lookup in Hn as (an & Han & Tan).
  apply truthy_lookup in Ht as (tv & Htv & Ttv).
  assert (Hcases : (exists t, tv = VTemplate t) \/ (forall t, tv <> VTemplate t)).
  { destruct tv; eauto. }
  destruct Hcases as [[t ->] | Hnt].
  - rewrite (validate_run h s w ap an t Hap Tap Han Tan Htv). cbn zeta.
    destruct (apply_fields h t (template_fields (today h (system w)) an)) as [e | p] eqn:Hf; [done |].
    intros _. by exists ap, an, t, p.
  - by rewrite (validate_past_exits h s w ap an tv Hap Tap Han Tan Htv Ttv Hnt).
Qed.

Lemma validate_true_only_if_witness :
  exists ap an t p,
    properties ExampleHost.accepted_item !! "asset_path" = Some ap /\ truthy ap = true
    /\ properties ExampleHost.accepted_item !! "asset_name" = Some an /\ truthy an = true
    /\ properties ExampleHost.accepted_item !! "publish_template" = Some (VTemplate t)
    /\ apply_fields ExampleHost.host t (template_fields (today ExampleHost.host ∅) an) = inr p.
Proof.
  apply (validate_true_only_if ExampleHost.host ExampleHost.configured
           (ExampleHost.world ExampleHost.accepted_item ∅)).
  vm_compute. reflexivity.
Defined.

(** X11: when the template does not resolve, the exception of
    [apply_fields] leaves [validate], and the item has by then been
    tagged with the publish type: [publish_type] is set, while [path] and
    [destination_path] are as they were. *)
Theorem validate_raise_keeps_publish_type
    (h : Host) (s : gmap string Setting) (w : World (sys h))
    (ap an : pyval) (t : template) (e : exn) :
  properties (item w) !! "asset_path" = Some ap -> truthy ap = true ->
  properties (item w) !! "asset_name" = Some an -> truthy an = true ->
  properties (item w) !! "publish_template" = Some (VTemplate t) ->
  apply_fields h t (template_fields (today h (system w)) an) = inl e ->
  (validate h s w).1 = inl e
  /\ properties (item (validate h s w).2)
     = <["publish_type" := VStr "Unreal Folder"]> (properties (item w))
  /\ properties (item (validate h s w).2) !! "path"
     = properties (item w) !! "path"
  /\ properties (item (validate h s w).2) !! "destination_path"
     = properties (item w) !! "destination_path".
Proof.
  intros Hap Tap Han Tan Ht He.
  rewrite (validate_run h s w ap an t Hap Tap Han Tan Ht). cbn zeta.
  rewrite He. cbn [fst snd item properties].
  by rewrite !lookup_insert_ne.
Qed.

Lemma validate_raise_keeps_publish_type_witness :
  properties (item (validate ExampleHost.host ExampleHost.configured
                      (ExampleHost.world ExampleHost.object_name_item ∅)).2)
    !! "publish_type"
  = Some (VStr "Unreal Folder").
Proof.
  destruct (validate_raise_keeps_publish_type ExampleHost.host
              ExampleHost.configured
              (ExampleHost.world ExampleHost.object_name_item ∅)
              (VObject "/Game/Characters/Hero/Hero_Skeleton") (VObject "Hero")
              ExampleHost.asset_template (HostError "TankError"))
    as (_ & Hprops & _);
    [reflexivity | reflexivity | reflexivity | reflexivity | reflexivity
    | vm_compute; reflexivity |].
  rewrite Hprops. apply lookup_insert_eq.
Defined.

(** X12: as long as the date is the same, a second [validate] on an
    item that validated gives [True] again and leaves the item as the
    first call left it, whatever else happened outside in between. *)
Theorem validate_again_same_day
    (h : Host) (s : gmap string Setting) (w w2 : World (sys h))
    (ap an : pyval) (t : template) (p : string) :
  properties (item w) !! "asset_path" = Some ap -> truthy ap = true ->
  properties (item w) !! "asset_name" = Some an -> truthy an = true ->
  properties (item w) !! "publish_template" = Some (VTemplate t) ->
  apply_fields h t (template_fields (today h (system w)) an) = inr p ->
  item w2 = item (validate h s w).2 ->
  today h (system w2) = today h (system w) ->
  (validate h s w2).1 = inr true /\ item (validate h s w2).2 = item w2.
Proof.
  intros Hap Tap Han Tan Ht Hp Hitem Hday. revert Hitem.
  rewrite (validate_run h s w ap an t Hap Tap Han Tan Ht). cbn zeta.
  rewrite Hp. cbn [snd item]. intros Hitem.
  rewrite (validate_run h s w2 ap an t); rewrite ?Hitem; cbn [properties];
    [| by rewrite !lookup_insert_ne | done | by rewrite !lookup_insert_ne | done
     | by rewrite !lookup_insert_ne].
  cbn zeta. rewrite Hday, Hp. cbn [fst snd item]. split; [reflexivity |].
  f_equal. apply map_eq. intros k. rewrite !lookup_insert.
  repeat case_decide; done.
Qed.

Lemma validate_again_same_day_witness :
  (validate ExampleHost.host ExampleHost.configured
     (validate ExampleHost.host ExampleHost.configured
        (ExampleHost.world ExampleHost.accepted_item ∅)).2).1 = inr true.
Proof.
  refine (proj1 (validate_again_same_day ExampleHost.host ExampleHost.configured
                   (ExampleHost.world ExampleHost.accepted_item ∅) _
                   (VObject "/Game/Characters/Hero/Hero_Skeleton") (VStr "Hero")
                   ExampleHost.asset_template "/pub/2024/3/5/Hero"
                   _ _ _ _ _ _ _ _)); reflexivity.
Defined.

(** ** [accept], then [validate] *)

(** X13: an item that [accept] turned down does not validate: [accept]
    stashed [None] as its template, and [validate] returns [False]
    whatever else the item holds. *)
Theorem accept_rejected_never_validates
    (h : Host) (s : gmap string Setting) (w : World (sys h)) :
  matches_schema h s ->
  configured_template h s = None ->
  (validate h s (accept h s w).2).1 = inr false.
Proof.
  intros Hs Hnone. rewrite (accept_run h s w Hs), Hnone. cbn [snd template_value].
  apply validate_falsy_template. unfold falsy_property. cbn [item properties].
  by rewrite lookup_insert_eq.
Qed.

Lemma accept_rejected_never_validates_witness :
  (validate ExampleHost.host ExampleHost.unconfigured
     (accept ExampleHost.host ExampleHost.unconfigured
        (ExampleHost.world ExampleHost.hero_item ∅)).2).1 = inr false.
Proof.
  apply accept_rejected_never_validates.
  - vm_compute. set_solver.
  - reflexivity.
Defined.

(** X14: the template [accept] stashes is the one [validate] resolves:
    after an accepting [accept], an item with a non-empty [asset_path]
    and [asset_name] validates when the configured template resolves the
    fields, and [path] is the normalized result. *)
Theorem accept_then_validate
    (h : Host) (s : gmap string Setting) (w : World (sys h))
    (ap an : pyval) (t : template) (p : string) :
  matches_schema h s ->
  configured_template h s = Some t ->
  properties (item w) !! "asset_path" = Some ap -> truthy ap = true ->
  properties (item w) !! "asset_name" = Some an -> truthy an = true ->
  apply_fields h t (template_fields (today h (system w)) an) = inr p ->
  (validate h s (accept h s w).2).1 = inr true
  /\ properties (item (validate h s (accept h s w).2).2) !! "path"
     = Some (VStr (OsPath.normpath p))
  /\ properties (item (validate h s (accept h s w).2).2) !! "publish_template"
     = Some (VTemplate t).
Proof.
  intros Hs Hcfg Hap Tap Han Tan Hp.
  rewrite (accept_run h s w Hs), Hcfg. cbn [snd template_value truthy].
  rewrite (validate_run h s _ ap an t); cbn [item properties system trace];
    [| by rewrite lookup_insert_ne | done | by rewrite lookup_insert_ne | done
     | by rewrite lookup_insert_eq].
  cbn zeta. rewrite Hp. cbn [fst snd item properties].
  split; [done |]. split.
  - rewrite lookup_insert_ne by done. apply lookup_insert_eq.
  - do 3 rewrite lookup_insert_ne by done. apply lookup_insert_eq.
Qed.

Lemma accept_then_validate_witness :
  (validate ExampleHost.host ExampleHost.configured
     (accept ExampleHost.host ExampleHost.configured
        (ExampleHost.world ExampleHost.hero_item ∅)).2).1 = inr true.
Proof.
  refine (proj1 (accept_then_validate ExampleHost.host ExampleHost.configured
                   (ExampleHost.world ExampleHost.hero_item ∅)
                   (VObject "/Game/Characters/Hero/Hero_Skeleton") (VStr "Hero")
                   ExampleHost.asset_template "/pub/2024/3/5/Hero" _ _ _ _ _ _ _)).
  - vm_compute. set_solver.
  - reflexivity.
  - reflexivity.
  - reflexivity.
  - reflexivity.
  - reflexivity.
  - vm_compute. reflexivity.
Defined.

(** ** [publish], the runs that fail early *)

(** X15: without a [destination_path] property, [publish] raises
    [KeyError] at once: no folder is made, nothing is copied, the base
    class is not called. *)
Theorem publish_missing_destination_path
    (h : Host) (s : gmap string Setting) (w : World (sys h)) :
  properties (item w) !! "destination_path" = None ->
  publish h s w = (inl (KeyError "destination_path"), w).
Proof. intros Hd. run_hook. by rewrite Hd. Qed.

Lemma publish_missing_destination_path_witness :
  publish ExampleHost.host ExampleHost.configured
    (ExampleHost.world ExampleHost.hero_item ∅)
  = (inl (KeyError "destination_path"), ExampleHost.world ExampleHost.hero_item ∅).
Proof. apply publish_missing_destination_path. reflexivity. Defined.

(** X16: [asset_path] and [asset_name] are read after the destination
    folder is ensured: when one of them is missing, [publish] raises
    [KeyError] for it (for [asset_path] when both are), the folder has
    been made all the same, and nothing is copied or registered. *)
Theorem publish_missing_asset_property
    (h : Host) (s : gmap string Setting) (w : World (sys h))
    (dv : pyval) (s1 : sys h) :
  properties (item w) !! "destination_path" = Some dv ->
  ensure_folder_exists h dv (system w) = (inr (), s1) ->
  properties (item w) !! "asset_path" = None
  \/ properties (item w) !! "asset_name" = None ->
  publish h s w =
    (inl (KeyError (match properties (item w) !! "asset_path" with
                    | None => "asset_path"
                    | Some _ => "asset_name"
                    end)),
     {| item := item w; system := s1;
        trace := trace w ++ [EnsureFolderExists dv] |}).
Proof.
  intros Hd Hmk Hmiss. run_hook. rewrite Hd. hook_step. rewrite Hmk. hook_step.
  destruct (properties (item w) !! "asset_path") as [ap |] eqn:Hap; hook_step.
  - destruct Hmiss as [? | ->]; [done | reflexivity].
  - reflexivity.
Qed.

Lemma publish_missing_asset_property_witness :
  publish ExampleHost.host ExampleHost.configured
    (ExampleHost.world ExampleHost.nameless_item ∅)
  = (inl (KeyError "asset_name"),
     {| item := ExampleHost.nameless_item;
        system := {[ "/pub/2024/3/5"%string ]} ∪ ∅;
        trace := [EnsureFolderExists (VStr "/pub/2024/3/5")] |}).
Proof.
  apply (publish_missing_asset_property ExampleHost.host ExampleHost.configured
           (ExampleHost.world ExampleHost.nameless_item ∅)
           (VStr "/pub/2024/3/5")).
  - reflexivity.
  - reflexivity.
  - right. reflexivity.
Defined.



(** ** [publish], the order of its calls *)

(** X18: whatever the item and the host, the calls of [publish] that can
    change something (it logs nothing) are a beginning of: ensure the
    folder, copy the tree, call the base class; each is made at most once
    and only after the one before returned.  A run that returns made all
    three, and a run that stopped before the base class left the item as
    it was.  (The work directory is asked of the engine in between; that
    query leaves no event.) *)
Theorem publish_call_order
    (h : Host) (s : gmap string Setting) (w : World (sys h)) :
  exists d src dst n,
    trace (publish h s w).2 = trace w ++ take n (publish_calls d src dst)
    /\ ((publish h s w).1 = inr () -> n = 3%nat)
    /\ ((n < 3)%nat -> item (publish h s w).2 = item w).
Proof.
  run_hook.
  destruct (properties (item w) !! "destination_path") as [dv |]; hook_step.
  2: { exists VNone, ""%string, ""%string, 0%nat. cbn. by rewrite app_nil_r. }
  destruct (ensure_folder_exists h dv (system w)) as [[e | []] s1]; hook_step.
  { exists dv, ""%string, ""%string, 1%nat. by cbn. }
  destruct (properties (item w) !! "asset_path") as [ap |]; hook_step.
  2: { exists dv, ""%string, ""%string, 1%nat. by cbn. }
  destruct (properties (item w) !! "asset_name") as [nv |]; hook_step.
  2: { exists dv, ""%string, ""%string, 1%nat. by cbn. }
  destruct dv as [| | | d | |]; hook_step;
    try (eexists _, ""%string, ""%string, 1%nat; by cbn).
  destruct nv as [| | | n | |]; hook_step;
    try (eexists _, ""%string, ""%string, 1%nat; by cbn).
  destruct (copytree h _ _ s1) as [[e | []] s2]; hook_step.
  { eexists _, _, _, 2%nat. cbn. rewrite <- app_assoc. by cbn. }
  destruct (base_publish h s (item w) s2) as [[[e | v] i] s3]; hook_step;
    eexists _, _, _, 3%nat; cbn; rewrite <- !app_assoc; cbn;
    (split; [reflexivity | split; [done | lia]]).
Qed.

(** ** Where [publish] copies to *)

(** X19: an asset name that starts with a slash takes over the
    destination: [os.path.join] drops [destination_path], and the tree is
    copied to the asset name itself. *)
Theorem publish_absolute_asset_name
    (h : Host) (s : gmap string Setting) (w : World (sys h))
    (d n : string) (ap : pyval) (s1 : sys h) :
  properties (item w) !! "destination_path" = Some (VStr d) ->
  properties (item w) !! "asset_path" = Some ap ->
  properties (item w) !! "asset_name" = Some (VStr n) ->
  ensure_folder_exists h (VStr d) (system w) = (inr (), s1) ->
  PyStr.startswith "/" n = true ->
  publish h s w =
    copy_and_register h s w s1 d (source_dir h (get_shotgun_work_dir h s1) ap) n.
Proof.
  intros Hd Hap Hn Hmk Habs.
  rewrite (publish_run h s w d n ap s1 Hd Hap Hn Hmk).
  f_equal. exact (join_absolute d n [] Habs).
Qed.

Lemma publish_absolute_asset_name_witness :
  trace (publish ExampleHost.host ExampleHost.configured
           (ExampleHost.world ExampleHost.absolute_name_item ExampleHost.exported)).2
  = [EnsureFolderExists (VStr "/pub/2024/3/5");
     CopyTree "/work/Content/Characters/Hero" "/tmp/Hero";
     BasePublish].
Proof.
  rewrite (publish_absolute_asset_name ExampleHost.host ExampleHost.configured
             (ExampleHost.world ExampleHost.absolute_name_item ExampleHost.exported)
             "/pub/2024/3/5" "/tmp/Hero"
             (VObject "/Game/Characters/Hero/Hero_Skeleton")
             ({[ "/pub/2024/3/5"%string ]} ∪ ExampleHost.exported));
    [| reflexivity | reflexivity | reflexivity | reflexivity | reflexivity].
  vm_compute. reflexivity.
Defined.

(** X20: [validate], then [publish]: when the last component of the
    validated path is the asset name, the tree is copied to the very path
    that [validate] stored in [path]. *)
Theorem publish_copies_to_validated_path
    (h : Host) (s : gmap string Setting) (w : World (sys h))
    (ap : pyval) (n : string) (t : template) (p : string) (s1 : sys h) :
  properties (item w) !! "asset_path" = Some ap -> truthy ap = true ->
  properties (item w) !! "asset_name" = Some (VStr n) -> n <> ""%string ->
  properties (item w) !! "publish_template" = Some (VTemplate t) ->
  apply_fields h t (template_fields (today h (system w)) (VStr n)) = inr p ->
  (OsPath.split (OsPath.normpath p)).2 = n ->
  ensure_folder_exists h (VStr (OsPath.split (OsPath.normpath p)).1) (system w)
  = (inr (), s1) ->
  let w' := (validate h s w).2 in
  properties (item w') !! "path" = Some (VStr (OsPath.normpath p))
  /\ publish h s w' =
       copy_and_register h s w' s1 (OsPath.split (OsPath.normpath p)).1
         (source_dir h (get_shotgun_work_dir h s1) ap) (OsPath.normpath p).
Proof.
  intros Hap Tap Han Hne Ht Hp Htail Hmk w'. subst w'.
  assert (Tan : truthy (VStr n) = true).
  { cbn. apply String.eqb_neq in Hne. by rewrite Hne. }
  rewrite (validate_run h s w ap (VStr n) t Hap Tap Han Tan Ht). cbn zeta.
  rewrite Hp. cbn [snd item properties].
  split.
  { rewrite lookup_insert_ne by done. apply lookup_insert_eq. }
  rewrite (publish_run h s _ (OsPath.split (OsPath.normpath p)).1 n ap s1);
    cbn [item properties system];
    [| apply lookup_insert_eq | by rewrite !lookup_insert_ne
     | by rewrite !lookup_insert_ne | done].
  f_equal. rewrite <- Htail.
  destruct (normpath_shape p) as [-> | (k & comps & Hk & Hnorm & -> & Hr)].
  - reflexivity.
  - by apply os_join_split_normal.
Qed.

Lemma publish_copies_to_validated_path_witness :
  properties (item (validate ExampleHost.host ExampleHost.configured
                      (ExampleHost.world ExampleHost.accepted_item
                         ExampleHost.exported)).2) !! "path"
  = Some (VStr "/pub/2024/3/5/Hero").
Proof.
  refine (proj1 (publish_copies_to_validated_path ExampleHost.host
                   ExampleHost.configured
                   (ExampleHost.world ExampleHost.accepted_item ExampleHost.exported)
                   (VObject "/Game/Characters/Hero/Hero_Skeleton") "Hero"
                   ExampleHost.asset_template "/pub/2024/3/5/Hero"
                   ({[ "/pub/2024/3/5"%string ]} ∪ ExampleHost.exported)
                   _ _ _ _ _ _ _ _)).
  - reflexivity.
  - reflexivity.
  - reflexivity.
  - done.
  - reflexivity.
  - vm_compute. reflexivity.
  - reflexivity.
  - reflexivity.
Defined.

(** ** [publish], twice *)

(** What a [publish] that returned went through. *)
Lemma publish_ok_inv (h : Host) (s : gmap string Setting) (w : World (sys h)) :
  (publish h s w).1 = inr () ->
  exists d n ap s1 s2,
    properties (item w) !! "destination_path" = Some (VStr d)
    /\ properties (item w) !! "asset_path" = Some ap
    /\ properties (item w) !! "asset_name" = Some (VStr n)
    /\ ensure_folder_exists h (VStr d) (system w) = (inr (), s1)
    /\ copytree h (source_dir h (get_shotgun_work_dir h s1) ap) (OsPath.join d [n]) s1
       = (inr (), s2)
    /\ item (publish h s w).2 = (base_publish h s (item w) s2).1.2
    /\ system (publish h s w).2 = (base_publish h s (item w) s2).2.
Proof.
  run_hook.
  destruct (properties (item w) !! "destination_path") as [dv |]; hook_step; [| done].
  destruct (ensure_folder_exists h dv (system w)) as [[e | []] s1] eqn:Hmk;
    hook_step; [done |].
  destruct (properties (item w) !! "asset_path") as [ap |]; hook_step; [| done].
  destruct (properties (item w) !! "asset_name") as [nv |]; hook_step; [| done].
  destruct dv as [| | | d | |]; hook_step; try done.
  destruct nv as [| | | n | |]; hook_step; try done.
  destruct (copytree h _ _ s1) as [[e | []] s2] eqn:Hcp; hook_step; [done |].
  destruct (base_publish h s (item w) s2) as [[[e | v] i] s3] eqn:Hb; hook_step;
    [done |].
  intros _. exists d, n, ap, s1, s2. by rewrite Hb.
Qed.

Lemma publish_existing_raises
    (h : Host) (s : gmap string Setting) (w : World (sys h)) (d n : string) :
  copytree_refuses_existing h ->
  ensure_folder_keeps h ->
  properties (item w) !! "destination_path" = Some (VStr d) ->
  properties (item w) !! "asset_name" = Some (VStr n) ->
  path_exists h (system w) (OsPath.join d [n]) = true ->
  exists e, (publish h s w).1 = inl e.
Proof.
  intros Hcopy Hkeep Hd Hn Hex.
  specialize (Hkeep (VStr d) (system w) _ Hex).
  destruct (ensure_folder_exists h (VStr d) (system w)) as [[e | []] s1] eqn:Hmk.
  { run_hook. rewrite Hd. hook_step. rewrite Hmk. by eexists. }
  destruct (properties (item w) !! "asset_path") as [ap |] eqn:Hap.
  2: { run_hook. rewrite Hd. hook_step. rewrite Hmk. hook_step. rewrite Hap.
       by eexists. }
  rewrite (publish_run h s w d n ap s1 Hd Hap Hn Hmk). unfold copy_and_register.
  cbn [snd] in Hkeep.
  destruct (Hcopy (source_dir h (get_shotgun_work_dir h s1) ap) _ s1 Hkeep)
    as [e He].
  destruct (copytree h _ _ s1) as [[e' | []] s2]; cbn in He; [| discriminate].
  by eexists.
Qed.

(** X21: on a host where [copytree] makes its destination and refuses an
    existing one, and where the folder call and the base class remove
    nothing and keep [destination_path] and [asset_name], a [publish]
    that returned cannot be repeated: the second run ends with an
    exception. *)
Theorem publish_twice_fails
    (h : Host) (s : gmap string Setting) (w : World (sys h)) :
  copytree_refuses_existing h ->
  copytree_creates h ->
  ensure_folder_keeps h ->
  base_publish_keeps h ->
  (publish h s w).1 = inr () ->
  exists e, (publish h s (publish h s w).2).1 = inl e.
Proof.
  intros Hrefuse Hcreate Hkeep Hbase Hok.
  destruct (publish_ok_inv h s w Hok)
    as (d & n & ap & s1 & s2 & Hd & Hap & Hn & Hmk & Hcp & Hitem & Hsys).
  destruct (Hbase s (item w) s2) as (Hfs & Hbd & Hbn).
  apply (publish_existing_raises h s _ d n Hrefuse Hkeep).
  - by rewrite Hitem, Hbd.
  - by rewrite Hitem, Hbn.
  - rewrite Hsys. apply Hfs. exact (Hcreate _ _ s1 s2 Hcp).
Qed.

Lemma example_copy_creates : copytree_creates ExampleHost.host.
Proof.
  intros src dst dirs dirs'. cbn. unfold ExampleHost.copy.
  destruct (negb _); [intros H; inversion H |].
  destruct (bool_decide _); [intros H; inversion H |].
  intros [= <-]. apply bool_decide_eq_true. set_solver.
Defined.

Lemma example_base_keeps : base_publish_keeps ExampleHost.host.
Proof. intros st i dirs. by cbn. Defined.

Lemma publish_twice_fails_witness :
  exists e,
    (publish ExampleHost.host ExampleHost.configured
       (publish ExampleHost.host ExampleHost.configured
          (ExampleHost.world ExampleHost.validated_item ExampleHost.exported)).2).1
    = inl e.
Proof.
  apply (publish_twice_fails ExampleHost.host ExampleHost.configured
           (ExampleHost.world ExampleHost.validated_item ExampleHost.exported)
           example_copy_refuses example_copy_creates example_mkdir_keeps
           example_base_keeps).
  vm_compute. reflexivity.
Defined.

(** ** More on slices and normalized paths *)

(** X22: on a list of three or more fields, the slice [[2:-1]] is what
    is left when the first two and the last are taken away. *)
Theorem slice_strips_ends {A} (l : list A) :
  (3 <= length l)%nat ->
  exists a b z, l = [a; b] ++ PyStr.slice 2 (-1) l ++ [z].
Proof.
  destruct l as [| a [| b [| c l]]]; cbn [length]; try lia. intros _.
  rewrite slice_2_m1.
  destruct (exists_last (l := c :: l) ltac:(done)) as (l' & z & ->).
  exists a, b, z. by rewrite removelast_last.
Qed.

Lemma slice_strips_ends_witness :
  exists a b z,
    [""; "Game"; "Characters"; "Hero"; "Hero_Skeleton"]%string
    = [a; b] ++ PyStr.slice 2 (-1)
                  [""; "Game"; "Characters"; "Hero"; "Hero_Skeleton"]%string ++ [z].
Proof. apply slice_strips_ends. cbn. lia. Defined.

(** X23: a normalized path ends with a slash only when it is the root,
    [/] or [//]. *)
Theorem normpath_no_trailing_slash (p : string) :
  PyStr.endswith "/" (OsPath.normpath p) = true ->
  OsPath.normpath p = "/"%string \/ OsPath.normpath p = "//"%string.
Proof.
  destruct (normpath_shape p) as [-> | (k & comps & Hk & [Hgood _] & -> & Hr)];
    [done |].
  destruct (decide (comps = [])) as [-> | Hne].
  - destruct k as [| [| [| k]]]; [done | by left | by right | lia].
  - destruct (join_good_end comps Hgood Hne) as (pre & y & -> & Hy & Hseg).
    rewrite <- append_assoc, endswith_append by done.
    by rewrite (endswith_segment "/" y Hseg).
Qed.

Lemma normpath_no_trailing_slash_witness :
  OsPath.normpath "/pub/.." = "/"%string \/ OsPath.normpath "/pub/.." = "//"%string.
Proof. apply normpath_no_trailing_slash. reflexivity. Defined.

Lemma contains_append (c : ascii) (a b : string) :
  PyStr.contains c (a +:+ b) = (PyStr.contains c a || PyStr.contains c b)%bool.
Proof.
  induction a as [| x a IH]; [reflexivity |].
  rewrite append_cons. cbn [PyStr.contains]. by rewrite IH, orb_assoc.
Qed.

Lemma rstrip_empty (c : ascii) (s : string) :
  PyStr.rstrip c s = ""%string -> s = PyStr.repeat_char c (String.length s).
Proof.
  induction s as [| a s IH]; [done |]. cbn [PyStr.rstrip].
  destruct (PyStr.rstrip c s) eqn:Hr; [| done].
  destruct (Ascii.eqb a c) eqn:Ha; [| done].
  apply Ascii.eqb_eq in Ha as ->. intros _. cbn. by rewrite <- IH.
Qed.

(** X24: the head [os.path.split] returns is empty exactly for a path
    without a slash; so [destination_path] is empty exactly when the
    validated path is a bare name. *)
Theorem os_split_head_empty_iff (p : string) :
  (OsPath.split p).1 = ""%string <-> segment p.
Proof.
  destruct (last_sep_decompose p) as [Hp | (a & b & -> & Hb)].
  - by rewrite (os_split_segment p Hp).
  - rewrite (os_split_last a b Hb). cbn zeta. cbn [fst].
    assert (Hns : ~ segment (a +:+ "/" +:+ b)).
    { unfold segment. rewrite !contains_append. cbn. by rewrite orb_true_r. }
    assert (Hne : a +:+ "/" <> ""%string) by (by destruct a).
    split; [| done]. intros Hhead. exfalso.
    assert (H1 : String.eqb (a +:+ "/") "" = false) by (by apply String.eqb_neq).
    rewrite H1 in Hhead. cbn [negb andb] in Hhead.
    destruct (String.eqb (a +:+ "/")
                (PyStr.repeat_char "/" (String.length (a +:+ "/")))) eqn:H2;
      cbn [negb] in Hhead; [done |].
    apply String.eqb_neq in H2. by apply H2, rstrip_empty.
Qed.

(** ** What [validate] stores *)

Lemma lstrip_repeat (k : nat) (a : ascii) (rest : string) :
  a <> "/"%char ->
  lstrip_sep (PyStr.repeat_char "/" k +:+ String a rest) = (k, String a rest).
Proof.
  intros Ha%Ascii.eqb_neq. induction k as [| k IH]; cbn [PyStr.repeat_char].
  - rewrite append_nil. cbn [lstrip_sep]. by rewrite Ha.
  - rewrite append_cons. cbn [lstrip_sep]. rewrite Ascii.eqb_refl, IH. reflexivity.
Qed.

Lemma good_comps_ok (comps : list string) :
  Forall good_comp comps -> forallb comp_ok comps = true.
Proof.
  induction 1 as [| c comps (He & Hd & _) _ IH]; [reflexivity |].
  cbn [forallb]. rewrite IH. unfold comp_ok.
  apply String.eqb_neq in He, Hd. by rewrite He, Hd.
Qed.

(** Leading slashes and normal components make a normalized path. *)
Lemma is_normalized_shape (k : nat) (comps : list string) :
  (k <= 2)%nat -> normal_comps k comps ->
  PyStr.repeat_char "/" k +:+ PyStr.join "/" comps <> ""%string ->
  is_normalized (PyStr.repeat_char "/" k +:+ PyStr.join "/" comps) = true.
Proof.
  intros Hk [Hgood Hlead] Hr.
  destruct comps as [| c cs].
  { destruct k as [| [| [| k]]]; [done | reflexivity | reflexivity | lia]. }
  destruct (join_good_head (c :: cs) Hgood ltac:(done)) as (a & rest & Hj & Ha).
  assert (Hsplit : PyStr.split "/" (String a rest) = c :: cs).
  { rewrite <- Hj. change "/"%string with (String "/" "").
    apply split_join; [done | by apply good_comps_segments]. }
  unfold is_normalized. apply orb_true_iff. right.
  rewrite Hj, (lstrip_repeat k a rest Ha). cbn [fst snd String.eqb].
  rewrite Hsplit, (good_comps_ok _ Hgood), Hlead.
  apply Nat.leb_le in Hk. by rewrite Hk.
Qed.

(** What [normpath] returns is a normalized path. *)
Lemma normpath_is_normalized (p : string) :
  is_normalized (OsPath.normpath p) = true.
Proof.
  destruct (normpath_shape p) as [-> | (k & comps & Hk & Hn & -> & Hr)].
  - reflexivity.
  - by apply is_normalized_shape.
Qed.

Lemma sep_not_segment (s : string) : ~ segment (String "/" s).
Proof. unfold segment. by cbn. Qed.

Lemma segment_append_sep (a b : string) : ~ segment (a +:+ "/" +:+ b).
Proof.
  unfold segment. induction a as [| x a IH].
  - by rewrite append_nil.
  - rewrite append_cons. cbn [PyStr.contains].
    destruct (Ascii.eqb x "/"); [done | exact IH].
Qed.

(** The head of a normalized path: empty for a bare name, and a
    normalized path in every other case. *)
Lemma split_normal_dest (k : nat) (comps : list string) :
  (k <= 2)%nat -> normal_comps k comps ->
  let r := PyStr.repeat_char "/" k +:+ PyStr.join "/" comps in
  r <> ""%string ->
  (segment r /\ (OsPath.split r).1 = ""%string)
  \/ (~ segment r /\ is_normalized (OsPath.split r).1 = true).
Proof.
  intros Hk Hn r Hr. subst r.
  destruct (decide (comps = [])) as [-> | Hne].
  { destruct k as [| [| [| k]]]; [done | | | lia]; right; split;
      (apply sep_not_segment || reflexivity). }
  destruct (exists_last Hne) as (init & last & ->).
  rewrite (os_split_normal k init last Hk Hn). cbn [fst].
  destruct Hn as [Hgood Hlead].
  apply Forall_app in Hgood as [Hinit Hlast].
  apply Forall_cons in Hlast as [(Hle & _ & Hseg) _].
  destruct init as [| x init].
  { cbn [app PyStr.join String.concat].
    destruct k as [| [| [| k]]]; [| | | lia]; cbn [PyStr.repeat_char].
    - left. by rewrite append_nil.
    - right. split; [apply sep_not_segment | reflexivity].
    - right. split; [apply sep_not_segment | reflexivity]. }
  right. split.
  - rewrite join_snoc by done. rewrite <- append_assoc. apply segment_append_sep.
  - destruct (join_good_head (x :: init) Hinit ltac:(done)) as (a & rest & Hj & Ha).
    apply is_normalized_shape; [done | | ].
    + split; [done |]. by apply dotdots_lead_prefix in Hlead.
    + rewrite Hj. destruct k; [by rewrite append_nil | done].
Qed.

Lemma split_normpath_dest (p : string) :
  (segment (OsPath.normpath p) /\ (OsPath.split (OsPath.normpath p)).1 = ""%string)
  \/ (~ segment (OsPath.normpath p)
      /\ is_normalized (OsPath.split (OsPath.normpath p)).1 = true).
Proof.
  destruct (normpath_shape p) as [-> | (k & comps & Hk & Hn & -> & Hr)].
  - left. by split.
  - by apply split_normal_dest.
Qed.

(** An absolute path stays absolute under [normpath]. *)
Lemma normpath_absolute (p : string) :
  PyStr.startswith "/" p = true -> ~ segment (OsPath.normpath p).
Proof.
  intros Habs. unfold OsPath.normpath.
  destruct p as [| c p]; [done |]. cbn [String.eqb].
  unfold OsPath.initial_slashes. change OsPath.sep_str with "/"%string.
  rewrite Habs.
  destruct (_ && _)%bool; cbn [PyStr.repeat_char]; rewrite !append_cons;
    cbn [String.eqb]; apply sep_not_segment.
Qed.

(** C2, as amended: with a non-empty [asset_path] and [asset_name] and a
    resolved template on the item whose fields resolve, [validate]
    returns [True]; [path] is the normalized result of resolving the
    template with the asset name and the year, month and day of the
    call, and [destination_path] is the head that [os.path.split] gives
    for that path.  [path] is always a well-formed normalized path.
    [destination_path] is one exactly when [path] holds a slash, as it
    does whenever the template result is absolute; for a bare relative
    name it is the empty string. *)
Theorem validate_sets_paths
    (h : Host) (s : gmap string Setting) (w : World (sys h))
    (ap an : pyval) (t : template) (p : string) :
  properties (item w) !! "asset_path" = Some ap -> truthy ap = true ->
  properties (item w) !! "asset_name" = Some an -> truthy an = true ->
  properties (item w) !! "publish_template" = Some (VTemplate t) ->
  apply_fields h t
    (<["DD" := VInt (day (today h (system w)))]>
       (<["MM" := VInt (month (today h (system w)))]>
          (<["YYYY" := VInt (year (today h (system w)))]> {[ "name" := an ]})))
  = inr p ->
  let path := OsPath.normpath p in
  let destination_path := (OsPath.split path).1 in
  validate h s w =
    (inr true,
     {| item := {| properties :=
                     <["destination_path" := VStr destination_path]>
                       (<["path" := VStr path]>
                          (<["publish_type" := VStr "Unreal Folder"]>
                             (properties (item w)))) |};
        system := system w; trace := trace w |})
  /\ is_normalized path = true
  /\ OsPath.normpath path = path
  /\ ((segment path /\ destination_path = ""%string)
      \/ (~ segment path /\ is_normalized destination_path = true))
  /\ (PyStr.startswith "/" p = true -> is_normalized destination_path = true).
Proof.
  intros Hap Tap Han Tan Ht Hp. repeat split.
  - rewrite (validate_run h s w ap an t Hap Tap Han Tan Ht).
    unfold template_fields. rewrite Hp. reflexivity.
  - apply normpath_is_normalized.
  - apply normpath_idempotent.
  - apply split_normpath_dest.
  - intros Habs. destruct (split_normpath_dest p) as [[Hseg _] | [_ Hn]]; [| done].
    by destruct (normpath_absolute p Habs).
Qed.

Lemma validate_sets_paths_witness :
  validate ExampleHost.host ExampleHost.configured
    (ExampleHost.world ExampleHost.accepted_item ∅)
  = (inr true, ExampleHost.world ExampleHost.validated_item ∅)
  /\ is_normalized "/pub/2024/3/5/Hero" = true
  /\ is_normalized "/pub/2024/3/5" = true
  /\ properties (item (validate ExampleHost.host ExampleHost.configured
                         (ExampleHost.world ExampleHost.slashed_item ∅)).2) !! "path"
     = Some (VStr "/pub/2024/3/5/Props/Hero").
Proof.
  destruct (validate_sets_paths ExampleHost.host ExampleHost.configured
              (ExampleHost.world ExampleHost.accepted_item ∅)
              (VObject "/Game/Characters/Hero/Hero_Skeleton") (VStr "Hero")
              ExampleHost.asset_template "/pub/2024/3/5/Hero")
    as (Hv & Hn & _ & _ & Hd);
    [reflexivity | reflexivity | reflexivity | reflexivity | reflexivity
    | vm_compute; reflexivity |].
  destruct (validate_sets_paths ExampleHost.host ExampleHost.configured
              (ExampleHost.world ExampleHost.slashed_item ∅)
              (VObject "/Game/Characters/Hero/Hero_Skeleton") (VStr "Props//Hero/")
              ExampleHost.asset_template "/pub/2024/3/5/Props//Hero/")
    as (Hv' & _);
    [reflexivity | reflexivity | reflexivity | reflexivity | reflexivity
    | vm_compute; reflexivity |].
  split; [rewrite Hv; reflexivity |]. split; [exact Hn |].
  split; [exact (Hd eq_refl) |].
  rewrite Hv'. reflexivity.
Defined.

(** A template that resolves to a bare name: [validate] returns [True]
    and stores the empty string as [destination_path], which is no
    normalized path ([normpath] of it is [.]). *)
Lemma validate_bare_name_destination :
  properties ExampleHost.accepted_item !! "asset_path"
  = Some (VObject "/Game/Characters/Hero/Hero_Skeleton")
  /\ properties ExampleHost.accepted_item !! "asset_name" = Some (VStr "Hero")
  /\ properties ExampleHost.accepted_item !! "publish_template"
     = Some (VTemplate ExampleHost.asset_template)
  /\ (validate ExampleHost.bare_host ExampleHost.configured
        (ExampleHost.world ExampleHost.accepted_item ∅)).1 = inr true
  /\ properties (item (validate ExampleHost.bare_host ExampleHost.configured
                         (ExampleHost.world ExampleHost.accepted_item ∅)).2)
       !! "destination_path" = Some (VStr "")
  /\ OsPath.normpath "" = "."%string
  /\ ~ validated_normalized
         (item (validate ExampleHost.bare_host ExampleHost.configured
                  (ExampleHost.world ExampleHost.accepted_item ∅)).2).
Proof.
  assert (Hd : properties
                 (item (validate ExampleHost.bare_host ExampleHost.configured
                          (ExampleHost.world ExampleHost.accepted_item ∅)).2)
                 !! "destination_path" = Some (VStr "")) by reflexivity.
  repeat split; try reflexivity.
  intros (path & dest & _ & Hdest & _ & Hn).
  rewrite Hd in Hdest. injection Hdest as <-. discriminate Hn.
Qed.

(** On the day after, [validate] stores another path in the item it
    validated the day before. *)
Example validate_next_day :
  properties (item (validate ExampleHost.dated_host ExampleHost.configured
                      (ExampleHost.world ExampleHost.validated_item
                         {[ "/tomorrow"%string ]})).2) !! "path"
  = Some (VStr "/pub/2024/3/6/Hero").
Proof. vm_compute. reflexivity. Qed.

(** ** Normalized paths are the fixed points of [normpath] *)

Lemma lstrip_sep_spec (s : string) :
  s = PyStr.repeat_char "/" (lstrip_sep s).1 +:+ (lstrip_sep s).2.
Proof.
  induction s as [| c s IH]; [reflexivity |]. cbn [lstrip_sep].
  destruct (Ascii.eqb c "/") eqn:Hc; cbn [fst snd PyStr.repeat_char].
  - apply Ascii.eqb_eq in Hc as ->. by rewrite append_cons, <- IH.
  - by rewrite append_nil.
Qed.

Lemma join_of_split (c : ascii) (s : string) :
  PyStr.join (String c "") (PyStr.split c s) = s.
Proof.
  induction s as [| a s IH]; [reflexivity |]. cbn [PyStr.split].
  destruct (Ascii.eqb a c) eqn:Ha.
  - apply Ascii.eqb_eq in Ha as ->.
    destruct (PyStr.split c s) as [| x l] eqn:Hs; [by destruct (split_nonempty c s) |].
    by rewrite join_cons, append_nil, append_cons, append_nil, IH.
  - destruct (PyStr.split c s) as [| x l] eqn:Hs; [by destruct (split_nonempty c s) |].
    by rewrite join_cons_head, IH.
Qed.

Lemma ok_comps_good (comps : list string) :
  forallb comp_ok comps = true -> Forall segment comps -> Forall good_comp comps.
Proof.
  intros Hok Hseg. induction Hseg as [| c comps Hc _ IH]; [constructor |].
  cbn [forallb] in Hok. apply andb_true_iff in Hok as [Hcok Hok].
  constructor; [| by apply IH].
  unfold comp_ok in Hcok. apply andb_true_iff in Hcok as [He Hd].
  apply negb_true_iff in He, Hd. apply String.eqb_neq in He, Hd. done.
Qed.

Lemma is_normalized_fixed (r : string) :
  is_normalized r = true -> OsPath.normpath r = r.
Proof.
  unfold is_normalized. intros [Hdot | H]%orb_true_iff.
  { by apply String.eqb_eq in Hdot as ->. }
  pose proof (lstrip_sep_spec r) as Hr. revert H Hr.
  generalize (lstrip_sep r).1 (lstrip_sep r).2. intros k body H ->.
  destruct (String.eqb body "") eqn:Hb.
  - apply String.eqb_eq in Hb as ->.
    apply orb_true_iff in H as [->%Nat.eqb_eq | ->%Nat.eqb_eq]; reflexivity.
  - apply String.eqb_neq in Hb.
    apply andb_true_iff in H as [[Hk%Nat.leb_le Hok]%andb_true_iff Hlead].
    rewrite <- (join_of_split "/" body) at 1 2.
    apply (normpath_normal k (PyStr.split "/" body) Hk).
    + split; [| done]. apply ok_comps_good; [done | apply split_segments].
    + change (String "/" "") with "/"%string. rewrite (join_of_split "/" body).
      destruct k; [by rewrite append_nil | done].
Qed.

(** X25: a string is a fixed point of [os.path.normpath] exactly when it
    is a normalized path as read off the string: [.], or at most two
    leading slashes followed by components that are separated by single
    slashes and are not empty and not [.], with [..] only at the front
    of a relative path. *)
Theorem is_normalized_iff_fixed (r : string) :
  is_normalized r = true <-> OsPath.normpath r = r.
Proof.
  split; [apply is_normalized_fixed |].
  intros <-. apply normpath_is_normalized.
Qed.
